(** * Branch activity report: a shallow embedding and its properties

    The development follows [branch_activity_report.py] (token
    authentication) and [gitea_branch_activity.py] (basic authentication).
    The two files share every class but [Gitea.__init__] and [main]; the
    shared classes are embedded once, the two differing parts live in the
    modules [BranchActivityReport] and [GiteaBranchActivity].

    Conventions of the embedding.
    - A Python [str] is a Rocq [string]; one character is one code point,
      restricted to U+0000..U+00FF.  In that range the only decimal digits
      (the class [\d] of [re]) are ['0'..'9'].
    - A value decoded by [json.loads] is a [pyval]; a [dict] is a finite map
      with string keys.
    - A raised exception is the [Raise] case of [result]; code that reads the
      wall clock or prints runs in the state-and-exception monad [M]. *)

From Stdlib Require Import ZArith String Ascii List Lia Bool.
From Stdlib Require Import Sorting.Sorted Sorting.Permutation.
From Stdlib Require Import DecimalString.
From stdpp Require Import base gmap strings.

Import ListNotations.
Local Open Scope Z_scope.
Set Warnings "-register-all".

(** ** Exceptions and results *)

(** The exception classes the program can meet.  [Exception msg] is the
    plain [Exception(message)] raised by [Gitea.get_branches]. *)
Inductive exn : Type :=
| Exception (msg : string)
| AttributeError
| TypeError
| ValueError
| IndexError
| OverflowError
| JSONDecodeError
| RequestException.

Inductive result (A : Type) : Type :=
| Ok (a : A)
| Raise (e : exn).
Arguments Ok {A} a.
Arguments Raise {A} e.

#[global] Instance result_ret : MRet result := fun A a => Ok a.

#[global] Instance result_bind : MBind result := fun A B k r =>
  match r with
  | Ok a => k a
  | Raise e => Raise e
  end.

Definition is_ok {A : Type} (r : result A) : bool :=
  match r with Ok _ => true | Raise _ => false end.

(** ** Python values *)

Inductive pyval : Type :=
| PyNone
| PyBool (b : bool)
| PyInt (z : Z)
| PyFloat (bits : Z)
| PyStr (s : string)
| PyList (l : list pyval)
| PyDict (d : gmap string pyval).

(** [d.get(key)] on a dict: [None] for a missing key. *)
Definition dict_get (d : gmap string pyval) (key : string) : pyval :=
  match d !! key with
  | Some v => v
  | None => PyNone
  end.

(** [obj.get(key)] on a dynamically typed value: no value decoded from JSON
    other than a dict has a [get] attribute. *)
Definition py_get (obj : pyval) (key : string) : result pyval :=
  match obj with
  | PyDict d => Ok (dict_get d key)
  | _ => Raise AttributeError
  end.

(** Slicing [seq[:stop]] on a sequence of length [n] keeps the first
    [slice_stop_index n stop] items: a negative [stop] counts from the end,
    and both ends are clamped. *)
Definition slice_stop_index (n : nat) (stop : Z) : nat :=
  if stop <? 0 then Z.to_nat (Z.max 0 (Z.of_nat n + stop))
  else Z.to_nat (Z.min stop (Z.of_nat n)).

Fixpoint str_take (n : nat) (s : string) : string :=
  match n, s with
  | O, _ => EmptyString
  | S _, EmptyString => EmptyString
  | S n', String c s' => String c (str_take n' s')
  end.

Fixpoint str_drop (n : nat) (s : string) : string :=
  match n, s with
  | O, _ => s
  | S _, EmptyString => EmptyString
  | S n', String _ s' => str_drop n' s'
  end.

Definition str_slice_to (s : string) (stop : Z) : string :=
  str_take (slice_stop_index (String.length s) stop) s.

(** [v[:stop]] on a dynamically typed value: strings and lists can be
    sliced, anything else decoded from JSON raises ([TypeError]; for a dict
    the class of the exception depends on the Python version, it is recorded
    as [TypeError] here). *)
Definition py_slice_to (v : pyval) (stop : Z) : result pyval :=
  match v with
  | PyStr s => Ok (PyStr (str_slice_to s stop))
  | PyList l => Ok (PyList (firstn (slice_stop_index (List.length l) stop) l))
  | _ => Raise TypeError
  end.

(** ** [datetime] and [timedelta] (naive values of the [datetime] module) *)

Record datetime : Type := mk_datetime {
  year : Z; month : Z; day : Z;
  hour : Z; minute : Z; second : Z; microsecond : Z
}.

Record timedelta : Type := mk_timedelta {
  days : Z; seconds : Z; microseconds : Z
}.

Definition _is_leap (y : Z) : bool :=
  (y mod 4 =? 0) && (negb (y mod 100 =? 0) || (y mod 400 =? 0)).

Definition _DAYS_IN_MONTH : list Z :=
  [-1; 31; 28; 31; 30; 31; 30; 31; 31; 30; 31; 30; 31].

Definition _DAYS_BEFORE_MONTH : list Z :=
  [-1; 0; 31; 59; 90; 120; 151; 181; 212; 243; 273; 304; 334].

Definition _days_before_year (y : Z) : Z :=
  let y' := y - 1 in y' * 365 + y' / 4 - y' / 100 + y' / 400.

Definition _days_in_month (y m : Z) : Z :=
  if (m =? 2) && _is_leap y then 29
  else nth (Z.to_nat m) _DAYS_IN_MONTH 0.

Definition _days_before_month (y m : Z) : Z :=
  nth (Z.to_nat m) _DAYS_BEFORE_MONTH 0
  + (if (2 <? m) && _is_leap y then 1 else 0).

Definition _ymd2ord (y m d : Z) : Z :=
  _days_before_year y + _days_before_month y m + d.

Definition toordinal (t : datetime) : Z :=
  _ymd2ord (year t) (month t) (day t).

(** The field checks of the [datetime] constructor. *)
Definition _check_date_fields (y m d : Z) : bool :=
  (1 <=? y) && (y <=? 9999) && (1 <=? m) && (m <=? 12)
  && (1 <=? d) && (d <=? _days_in_month y m).

Definition _check_time_fields (h mi s us : Z) : bool :=
  (0 <=? h) && (h <=? 23) && (0 <=? mi) && (mi <=? 59)
  && (0 <=? s) && (s <=? 59) && (0 <=? us) && (us <=? 999999).

Definition datetime_valid (t : datetime) : bool :=
  _check_date_fields (year t) (month t) (day t)
  && _check_time_fields (hour t) (minute t) (second t) (microsecond t).

Definition datetime_new (y m d h mi s us : Z) : result datetime :=
  if _check_date_fields y m d && _check_time_fields h mi s us
  then Ok (mk_datetime y m d h mi s us)
  else Raise ValueError.

(** Carrying of an integer [(days, seconds, microseconds)] triple into the
    normal form [0 <= seconds < 86400], [0 <= microseconds < 1000000]. *)
Definition timedelta_norm (d s us : Z) : timedelta :=
  let s1 := s + us / 1000000 in
  mk_timedelta (d + s1 / 86400) (s1 mod 86400) (us mod 1000000).

(** [timedelta(days=d, seconds=s, microseconds=us)] on integers. *)
Definition timedelta_new (d s us : Z) : result timedelta :=
  let t := timedelta_norm d s us in
  if 999999999 <? Z.abs (days t) then Raise OverflowError else Ok t.

Definition timedelta_normal (t : timedelta) : Prop :=
  0 <= seconds t < 86400 /\ 0 <= microseconds t < 1000000.

Definition total_microseconds (t : timedelta) : Z :=
  (days t * 86400 + seconds t) * 1000000 + microseconds t.

(** Tuple comparison, as [_cmp] on the state tuples. *)
Fixpoint lex_cmp (a b : list Z) : comparison :=
  match a, b with
  | [], [] => Eq
  | [], _ :: _ => Lt
  | _ :: _, [] => Gt
  | x :: a', y :: b' =>
      match x ?= y with
      | Eq => lex_cmp a' b'
      | c => c
      end
  end.

Definition timedelta_state (t : timedelta) : list Z :=
  [days t; seconds t; microseconds t].

Definition timedelta_cmp (a b : timedelta) : comparison :=
  lex_cmp (timedelta_state a) (timedelta_state b).

Definition timedelta_lt (a b : timedelta) : bool :=
  match timedelta_cmp a b with Lt => true | _ => false end.

Definition timedelta_ge (a b : timedelta) : bool :=
  match timedelta_cmp a b with Lt => false | _ => true end.

Definition datetime_state (t : datetime) : list Z :=
  [year t; month t; day t; hour t; minute t; second t; microsecond t].

Definition datetime_cmp (a b : datetime) : comparison :=
  lex_cmp (datetime_state a) (datetime_state b).

Definition datetime_lt (a b : datetime) : bool :=
  match datetime_cmp a b with Lt => true | _ => false end.

Definition datetime_le (a b : datetime) : Prop :=
  datetime_cmp a b <> Gt.

(** [a - b] on naive datetimes.  The range check of the [timedelta]
    constructor cannot fail on two valid datetimes ([datetime_sub_in_range]
    below), so the difference is the normalised triple. *)
Definition datetime_sub (a b : datetime) : timedelta :=
  let secs1 := second a + minute a * 60 + hour a * 3600 in
  let secs2 := second b + minute b * 60 + hour b * 3600 in
  timedelta_norm (toordinal a - toordinal b) (secs1 - secs2)
                 (microsecond a - microsecond b).

(** Microseconds since the start of the proleptic calendar. *)
Definition datetime_microseconds (t : datetime) : Z :=
  ((toordinal t * 86400) + second t + minute t * 60 + hour t * 3600) * 1000000
  + microsecond t.

(** ** Decimal text *)

Definition digit_char (z : Z) : ascii :=
  ascii_of_nat (48 + Z.to_nat (z mod 10)).

(** The last [width] decimal digits of [z], most significant first. *)
Fixpoint zero_pad (width : nat) (z : Z) : string :=
  match width with
  | O => EmptyString
  | S w => zero_pad w (z / 10) +:+ String (digit_char z) EmptyString
  end.

(** [str(z)] for an integer. *)
Definition str_of_int (z : Z) : string :=
  NilZero.string_of_int (Z.to_int z).

Definition is_digit (c : ascii) : bool :=
  let n := nat_of_ascii c in (48 <=? n)%nat && (n <=? 57)%nat.

Definition digit_value (c : ascii) : Z := Z.of_nat (nat_of_ascii c) - 48.

(** [int(s)] on a run of digits with optional surrounding blanks (the text of
    a matched [strptime] group): blanks are skipped. *)
Fixpoint int_of_digits (acc : Z) (s : string) : Z :=
  match s with
  | EmptyString => acc
  | String c s' =>
      if is_digit c then int_of_digits (acc * 10 + digit_value c) s'
      else int_of_digits acc s'
  end.

(** ** [strftime] and [strptime] *)

Inductive fmt_item : Type :=
| FDir (c : ascii)     (* a directive [%c] *)
| FChr (c : ascii).    (* an ordinary character *)

Fixpoint parse_format (s : string) : list fmt_item :=
  match s with
  | EmptyString => []
  | String c s' =>
      if Ascii.eqb c "%" then
        match s' with
        | String d s'' => FDir d :: parse_format s''
        | EmptyString => [FChr c]
        end
      else FChr c :: parse_format s'
  end.

(** The directives the program uses.  [%Y] is the year padded to four
    digits (as documented; some C libraries do not pad years below 1000),
    [%m] the month, [%M] the minute.  Another directive is copied as it is. *)
Definition strftime_item (t : datetime) (i : fmt_item) : string :=
  match i with
  | FChr c => String c EmptyString
  | FDir c =>
      if Ascii.eqb c "d" then zero_pad 2 (day t)
      else if Ascii.eqb c "m" then zero_pad 2 (month t)
      else if Ascii.eqb c "Y" then zero_pad 4 (year t)
      else if Ascii.eqb c "H" then zero_pad 2 (hour t)
      else if Ascii.eqb c "M" then zero_pad 2 (minute t)
      else if Ascii.eqb c "S" then zero_pad 2 (second t)
      else String "%" (String c EmptyString)
  end.

Definition strftime (t : datetime) (format : string) : string :=
  String.concat "" (map (strftime_item t) (parse_format format)).

(** The regular expressions of [_strptime.TimeRE], matched as [re] does:
    by backtracking, alternatives in order, ignoring case. *)
Inductive regex : Type :=
| REmpty
| RChar (c : ascii)
| RDigit
| RRange (lo hi : ascii)
| RSeq (r1 r2 : regex)
| RAlt (r1 r2 : regex)
| RGroup (name : ascii) (r : regex).

Definition ascii_lower (c : ascii) : ascii :=
  let n := nat_of_ascii c in
  if (65 <=? n)%nat && (n <=? 90)%nat then ascii_of_nat (n + 32) else c.

Definition in_range (lo hi c : ascii) : bool :=
  (nat_of_ascii lo <=? nat_of_ascii c)%nat
  && (nat_of_ascii c <=? nat_of_ascii hi)%nat.

Definition captures : Type := list (ascii * string).

(** One way of matching: the text consumed, the groups captured in it and
    the text left over. *)
Record rmatched : Type := mk_rmatched {
  m_text : string;
  m_groups : captures;
  m_rest : string
}.

Definition match_one (p : ascii -> bool) (s : string) : list rmatched :=
  match s with
  | String x s' =>
      if p x then [mk_rmatched (String x EmptyString) [] s'] else []
  | EmptyString => []
  end.

(** All the ways [r] matches a prefix of [s], in the order the backtracking
    search meets them. *)
Fixpoint rmatch (r : regex) (s : string) : list rmatched :=
  match r with
  | REmpty => [mk_rmatched EmptyString [] s]
  | RChar c => match_one (fun x => Ascii.eqb (ascii_lower c) (ascii_lower x)) s
  | RDigit => match_one is_digit s
  | RRange lo hi => match_one (in_range lo hi) s
  | RSeq r1 r2 =>
      flat_map (fun m1 =>
                  map (fun m2 => mk_rmatched (m_text m1 +:+ m_text m2)
                                             (m_groups m1 ++ m_groups m2)
                                             (m_rest m2))
                      (rmatch r2 (m_rest m1)))
               (rmatch r1 s)
  | RAlt r1 r2 => rmatch r1 s ++ rmatch r2 s
  | RGroup name r1 =>
      map (fun m1 => mk_rmatched (m_text m1)
                                 (m_groups m1 ++ [(name, m_text m1)])
                                 (m_rest m1))
          (rmatch r1 s)
  end.

Definition RSeq2 (lo1 hi1 lo2 hi2 : ascii) : regex :=
  RSeq (RRange lo1 hi1) (RRange lo2 hi2).

(** [TimeRE]'s entries for the directives of the program's format:
    [\d\d\d\d], [1[0-2]|0[1-9]|[1-9]], [3[0-1]|[1-2]\d|0[1-9]|[1-9]| [1-9]],
    [2[0-3]|[0-1]\d|\d], [[0-5]\d|\d] and [6[0-1]|[0-5]\d|\d]. *)
Definition TimeRE_Y : regex :=
  RGroup "Y" (RSeq RDigit (RSeq RDigit (RSeq RDigit RDigit))).

Definition TimeRE_m : regex :=
  RGroup "m" (RAlt (RSeq2 "1" "1" "0" "2")
             (RAlt (RSeq2 "0" "0" "1" "9") (RRange "1" "9"))).

Definition TimeRE_d : regex :=
  RGroup "d" (RAlt (RSeq2 "3" "3" "0" "1")
             (RAlt (RSeq (RRange "1" "2") RDigit)
             (RAlt (RSeq2 "0" "0" "1" "9")
             (RAlt (RRange "1" "9") (RSeq2 " " " " "1" "9"))))).

Definition TimeRE_H : regex :=
  RGroup "H" (RAlt (RSeq2 "2" "2" "0" "3")
             (RAlt (RSeq (RRange "0" "1") RDigit) RDigit)).

Definition TimeRE_M : regex :=
  RGroup "M" (RAlt (RSeq (RRange "0" "5") RDigit) RDigit).

Definition TimeRE_S : regex :=
  RGroup "S" (RAlt (RSeq2 "6" "6" "0" "1")
             (RAlt (RSeq (RRange "0" "5") RDigit) RDigit)).

Definition directive_regex (c : ascii) : option regex :=
  if Ascii.eqb c "Y" then Some TimeRE_Y
  else if Ascii.eqb c "m" then Some TimeRE_m
  else if Ascii.eqb c "d" then Some TimeRE_d
  else if Ascii.eqb c "H" then Some TimeRE_H
  else if Ascii.eqb c "M" then Some TimeRE_M
  else if Ascii.eqb c "S" then Some TimeRE_S
  else None.

Fixpoint format_regex (items : list fmt_item) : option regex :=
  match items with
  | [] => Some REmpty
  | FChr c :: rest => RSeq (RChar c) <$> format_regex rest
  | FDir c :: rest =>
      match directive_regex c, format_regex rest with
      | Some r, Some r' => Some (RSeq r r')
      | _, _ => None
      end
  end.

Fixpoint group (name : ascii) (found : captures) : option string :=
  match found with
  | [] => None
  | (n, text) :: rest => if Ascii.eqb n name then Some text else group name rest
  end.

Definition group_int (name : ascii) (dflt : Z) (found : captures) : Z :=
  match group name found with
  | Some text => int_of_digits 0 text
  | None => dflt
  end.

(** [datetime.strptime(data_string, format)]: a bad directive, no match,
    unconverted trailing data and out-of-range fields are all [ValueError]. *)
Definition strptime (data_string format : string) : result datetime :=
  match format_regex (parse_format format) with
  | None => Raise ValueError
  | Some re =>
      match rmatch re data_string with
      | [] => Raise ValueError
      | found :: _ =>
          match m_rest found with
          | String _ _ => Raise ValueError
          | EmptyString =>
              let groups := m_groups found in
              datetime_new (group_int "Y" 1900 groups) (group_int "m" 1 groups)
                           (group_int "d" 1 groups) (group_int "H" 0 groups)
                           (group_int "M" 0 groups) (group_int "S" 0 groups) 0
          end
      end
  end.

(** [strptime] on a dynamically typed first argument. *)
Definition py_strptime (v : pyval) (format : string) : result datetime :=
  match v with
  | PyStr s => strptime s format
  | _ => Raise TypeError
  end.

(** ** [sorted(iterable, key=...)] *)

(** Python's sort is stable and compares keys with [<] only.  On a strict
    weak order the stable sorted arrangement of a list is unique, so the
    straight insertion below returns what [sorted] returns. *)
Section Sorted.
Context {A K : Type} (key : A -> K) (lt : K -> K -> bool).

Fixpoint sorted_insert (x : A) (l : list A) : list A :=
  match l with
  | [] => [x]
  | y :: t => if lt (key y) (key x) then y :: sorted_insert x t
              else x :: y :: t
  end.

Fixpoint sorted (l : list A) : list A :=
  match l with
  | [] => []
  | x :: t => sorted_insert x (sorted t)
  end.
End Sorted.

(** ** Ordered dictionaries built by a dict display *)

Definition odict : Type := list (string * pyval).

Fixpoint odict_set (k : string) (v : pyval) (d : odict) : odict :=
  match d with
  | [] => [(k, v)]
  | (k', v') :: t => if String.eqb k' k then (k', v) :: t
                     else (k', v') :: odict_set k v t
  end.

Definition odict_of_items (items : list (string * pyval)) : odict :=
  fold_left (fun d kv => odict_set (fst kv) (snd kv) d) items [].

Fixpoint odict_get (k : string) (d : odict) : option pyval :=
  match d with
  | [] => None
  | (k', v) :: t => if String.eqb k' k then Some v else odict_get k t
  end.

Definition odict_keys (d : odict) : list string := map fst d.
Definition odict_values (d : odict) : list pyval := map snd d.

(** ** The world the program runs in *)

Module Request.
Record t : Type := mk {
  url : string;
  headers : list (string * string);
  auth : option (string * string);
  verify : bool
}.
End Request.

Module Response.
Record t : Type := mk { status_code : Z; url : string; text : string }.
End Response.

(** What the program does not define: the wall clock ([wall_clock i] is
    what the [i]-th call of [datetime.today()] returns), the table layout of
    the [tabulate] package, the HTTP exchange and the JSON decoder. *)
Record Env : Type := mk_Env {
  wall_clock : nat -> datetime;
  tabulate : list (list pyval) -> list string -> string;
  requests_get : Request.t -> result Response.t;
  json_loads : string -> option pyval
}.

Inductive printed : Type :=
| PrintText (s : string)                 (* [print(s)] *)
| PrintException (label : string) (e : exn).  (* [print(label, exc)] *)

Record World : Type := mk_World {
  ticks : nat;               (* calls of [datetime.today()] so far *)
  stdout : list printed;
  log : list exn             (* [logging.error("Exception %s", exc)] *)
}.

Definition M (A : Type) : Type := Env -> World -> result A * World.

#[global] Instance M_ret : MRet M := fun A a _ w => (Ok a, w).

#[global] Instance M_bind : MBind M := fun A B k m env w =>
  match m env w with
  | (Ok a, w') => k a env w'
  | (Raise e, w') => (Raise e, w')
  end.

#[global] Instance M_fmap : FMap M := fun A B f m env w =>
  match m env w with
  | (Ok a, w') => (Ok (f a), w')
  | (Raise e, w') => (Raise e, w')
  end.

Definition lift {A : Type} (r : result A) : M A := fun _ w => (r, w).

Definition raise {A : Type} (e : exn) : M A := lift (Raise e).

Definition ask : M Env := fun env w => (Ok env, w).

Definition datetime_today : M datetime := fun env w =>
  (Ok (wall_clock env (ticks w)),
   mk_World (S (ticks w)) (stdout w) (log w)).

Definition print (s : string) : M unit := fun _ w =>
  (Ok tt, mk_World (ticks w) (stdout w ++ [PrintText s]) (log w)).

Definition print_exception (label : string) (e : exn) : M unit := fun _ w =>
  (Ok tt, mk_World (ticks w) (stdout w ++ [PrintException label e]) (log w)).

Definition logging_error (e : exn) : M unit := fun _ w =>
  (Ok tt, mk_World (ticks w) (stdout w) (log w ++ [e])).

(** [try: body except Exception as exc: handler(exc)] *)
Definition try_except {A : Type} (body : M A) (handler : exn -> M A) : M A :=
  fun env w =>
    match body env w with
    | (Ok a, w') => (Ok a, w')
    | (Raise e, w') => handler e env w'
    end.

(** [[f(x) for x in l]] and [[x for x in l if cond(x)]], left to right. *)
Fixpoint comprehension {A B : Type} (f : A -> M B) (l : list A) : M (list B) :=
  match l with
  | [] => mret (M:=M) []
  | x :: t => y ← f x; ys ← comprehension f t; mret (M:=M) (y :: ys)
  end.

Fixpoint comprehension_if {A : Type} (cond : A -> M bool) (l : list A)
  : M (list A) :=
  match l with
  | [] => mret (M:=M) []
  | x :: t =>
      cond x ≫= λ keep : bool,
      ys ← comprehension_if cond t;
      mret (M:=M) (if keep then x :: ys else ys)
  end.

(** [l[0]] *)
Definition list_first {A : Type} (l : list A) : result A :=
  match l with
  | x :: _ => Ok x
  | [] => Raise IndexError
  end.

(** [for x in v]: the items a value yields when iterated.  A dict yields its
    keys, a string its characters; numbers, booleans and [None] are not
    iterable. *)
Definition py_iter (v : pyval) : result (list pyval) :=
  match v with
  | PyList l => Ok l
  | PyDict d => Ok (map (fun kv => PyStr (fst kv)) (map_to_list d))
  | PyStr s => Ok (map (fun c => PyStr (String c EmptyString)) (list_ascii_of_string s))
  | _ => Raise TypeError
  end.

(** [{x}] in an f-string for a value that is a [str] or [None]. *)
Definition fstr (v : option string) : string := default "None" v.

(** ** The classes of the program *)

Module Commit.
Record t : Type := mk {
  _url : pyval;
  _author : pyval;
  _message : pyval;
  _timestamp : datetime
}.

Definition __init__ (url author message : pyval) (timestamp : datetime)
  : result t :=
  (* Get only the first 90 char of the message *)
  m ← py_slice_to message 90;
  mret (mk url author m timestamp).

Definition get_timestamp (self : t) : datetime := _timestamp self.

Definition get_dict (self : t) : odict :=
  odict_of_items
    [("author", _author self);
     ("message", _message self);
     ("timestamp", PyStr (strftime (_timestamp self) "%d-%m-%Y %H:%m"));
     ("url", _url self)].
End Commit.

Module Branch.
Record t : Type := mk { _name : pyval; _last_commit : Commit.t }.

Definition __init__ (name : pyval) (last_commit : Commit.t) : t :=
  mk name last_commit.

Definition get_last_commit (self : t) : Commit.t := _last_commit self.

Definition get_name (self : t) : pyval := _name self.

Definition get_dict (self : t) : M odict :=
  today ← datetime_today;
  let time_since_last_commit :=
    datetime_sub today (Commit.get_timestamp (_last_commit self)) in
  let last_commit_dict := Commit.get_dict (_last_commit self) in
  mret (odict_of_items
          ([("name", _name self);
            ("days_since_last_commit", PyInt (days time_since_last_commit))]
           ++ last_commit_dict)).

Definition is_active (self : t) (time_inactive : timedelta) : M bool :=
  today ← datetime_today;
  mret (timedelta_lt
          (datetime_sub today (Commit.get_timestamp (_last_commit self)))
          time_inactive).
End Branch.

Module Repository.
Record t : Type := mk { _name : string; _branches : list Branch.t }.

Definition __init__ (name : string) (branches : list Branch.t) : t :=
  mk name branches.

Definition get_inactive_branches (self : t) (time_inactive : timedelta)
  : M (list Branch.t) :=
  comprehension_if
    (fun branch => negb <$> Branch.is_active branch time_inactive)
    (_branches self).

Definition display_tabulate (self : t) (sort_by_datetime : bool) : M unit :=
  let sorted_branches :=
    if sort_by_datetime
    then sorted (fun branch => Commit.get_timestamp (Branch.get_last_commit branch))
                datetime_lt (_branches self)
    else _branches self in
  data ← comprehension (fun branch => odict_values <$> Branch.get_dict branch)
                       sorted_branches;
  first ← lift (list_first sorted_branches);
  header ← Branch.get_dict first;
  env ← ask;
  print (tabulate env data (odict_keys header)).
End Repository.

Module Gitea.
(** [self.requests] is a [requests.Session]; the fields [session_auth] and
    [session_verify] are its [auth] and [verify] attributes. *)
Record t : Type := mk {
  gitea : option string;
  _owner : option string;
  _repository : option string;
  session_auth : option (string * string);
  session_verify : bool;
  _headers : list (string * string)
}.

Definition _get_url (self : t) (endpoint : string) : string :=
  fstr (gitea self) +:+ "/api/v1/repos/" +:+ endpoint.

Definition accepted_status_codes : list Z := [200; 2001].

Definition status_message (r : Response.t) : string :=
  "Received status code: " +:+ str_of_int (Response.status_code r)
  +:+ " (" +:+ Response.url r +:+ ")".

Definition get_branches (self : t) : M pyval :=
  let endpoint :=
    fstr (_owner self) +:+ "/" +:+ fstr (_repository self) +:+ "/branches" in
  env ← ask;
  request ← lift (requests_get env
                    (Request.mk (_get_url self endpoint) (_headers self)
                                (session_auth self) (session_verify self)));
  if negb (existsb (Z.eqb (Response.status_code request)) accepted_status_codes)
  then raise (Exception (status_message request))
  else
    match json_loads env (Response.text request) with
    | Some v => mret v
    | None => raise JSONDecodeError
    end.

Definition parse_commit_result (self : t) (commit : pyval) : result Commit.t :=
  message ← py_get commit "message";
  url ← py_get commit "url";
  author_obj ← py_get commit "author";
  author ← py_get author_obj "name";
  raw ← py_get commit "timestamp";
  stripped ← py_slice_to raw (-6);
  timestamp ← py_strptime stripped "%Y-%m-%dT%H:%M:%S";
  Commit.__init__ url author message timestamp.

Definition parse_branch_result (self : t) (branch : pyval) : result Branch.t :=
  name ← py_get branch "name";
  commit ← py_get branch "commit";
  last_commit ← parse_commit_result self commit;
  mret (Branch.__init__ name last_commit).

(** The loop body: map one record and append the branch. *)
Definition parse_step (self : t) (acc : result (list Branch.t))
  (branch_result : pyval) : result (list Branch.t) :=
  branches ← acc;
  branch ← parse_branch_result self branch_result;
  mret (branches ++ [branch]).

Definition parse_repository_results (self : t) (results : pyval)
  : result (list Branch.t) :=
  items ← py_iter results;
  fold_left (parse_step self) items (Ok []).
End Gitea.

(** [timedelta(days=inactive_days)] for the parsed [--days] value, which is
    an [int], or [None] when the option is absent. *)
Definition timedelta_days (inactive_days : option Z) : result timedelta :=
  match inactive_days with
  | Some d => timedelta_new d 0 0
  | None => Raise TypeError
  end.

(** The part of [main] the two files share, after the client is built. *)
Definition report (gitea : Gitea.t) (inactive_days : option Z) : M unit :=
  results ← Gitea.get_branches gitea;
  branches ← lift (Gitea.parse_repository_results gitea results);
  let repo := Repository.__init__ "FWSW_Platform" branches in
  time_inactive ← lift (timedelta_days inactive_days);
  inactive ← Repository.get_inactive_branches repo time_inactive;
  let inactive_repo := Repository.__init__ "FWSW_Platform" inactive in
  Repository.display_tabulate inactive_repo true.

(** [branch_activity_report.py]: token authentication, failures logged. *)
Module BranchActivityReport.
Record Namespace : Type := mk_Namespace {
  access_token : option string;
  gitea_url : option string;
  owner : option string;
  repository : option string;
  days : option Z
}.

Definition Gitea__init__ (gitea_server access_token owner repository : option string)
  (verify : bool) : Gitea.t :=
  Gitea.mk gitea_server owner repository None verify
    [("Content-type", "application/json");
     ("Authorization", "token " +:+ fstr access_token)].

(** [args] is what [process_arguments()] returned. *)
Definition main (args : Namespace) : M unit :=
  try_except
    (report (Gitea__init__ (gitea_url args) (access_token args) (owner args)
                           (repository args) false)
            (days args))
    (fun exc => logging_error exc).
End BranchActivityReport.

(** [gitea_branch_activity.py]: basic authentication, failures printed. *)
Module GiteaBranchActivity.
Record Namespace : Type := mk_Namespace {
  auth_username : string;
  auth_password : string;
  gitea_url : string;
  owner : string;
  repository : string;
  days : Z
}.

Definition Gitea__init__ (gitea : string) (auth : string * string)
  (owner repository : string) (verify : bool) : Gitea.t :=
  Gitea.mk (Some gitea) (Some owner) (Some repository) (Some auth) verify
    [("Content-type", "application/json")].

Definition main (args : Namespace) : M unit :=
  try_except
    (report (Gitea__init__ (gitea_url args)
                           (auth_username args, auth_password args)
                           (owner args) (repository args) false)
            (Some (days args)))
    (fun exc => print_exception "Exception" exc).
End GiteaBranchActivity.

(** * Specification-side definitions *)

Definition commit_timestamp (b : Branch.t) : datetime :=
  Commit.get_timestamp (Branch.get_last_commit b).

(** [N - lastCommit.timestamp >= T], with Python's [-] and [>=]. *)
Definition inactive_at (N : datetime) (T : timedelta) (b : Branch.t) : bool :=
  timedelta_ge (datetime_sub N (commit_timestamp b)) T.

(** The world after [n] more readings of the clock. *)
Definition advance (n : nat) (w : World) : World :=
  mk_World (ticks w + n) (stdout w) (log w).

(** The next [n] readings of the clock all return [N]. *)
Definition clock_reads (env : Env) (w : World) (n : nat) (N : datetime) : Prop :=
  forall i : nat, (i < n)%nat -> wall_clock env (ticks w + i) = N.

Definition datetime_eqb (a b : datetime) : bool :=
  match datetime_cmp a b with Eq => true | _ => false end.

(** [len(v)] of a stored message (a string or, for a JSON array, a list). *)
Definition message_length (v : pyval) : nat :=
  match v with
  | PyStr s => String.length s
  | PyList l => length l
  | _ => 0%nat
  end.

(** The text of [n] copies of one character. *)
Fixpoint str_repeat (c : ascii) (n : nat) : string :=
  match n with
  | O => EmptyString
  | S n' => String c (str_repeat c n')
  end.

(** The row of one branch when the clock reads [today]. *)
Definition branch_dict (today : datetime) (b : Branch.t) : odict :=
  let c := Branch.get_last_commit b in
  [("name", Branch.get_name b);
   ("days_since_last_commit", PyInt (days (datetime_sub today (commit_timestamp b))));
   ("author", Commit._author c);
   ("message", Commit._message c);
   ("timestamp", PyStr (strftime (commit_timestamp b) "%d-%m-%Y %H:%m"));
   ("url", Commit._url c)].

(** The rows of a table whose first row is computed at clock reading [t],
    the next at [S t], and so on. *)
Fixpoint table_rows (env : Env) (t : nat) (bs : list Branch.t)
  : list (list pyval) :=
  match bs with
  | [] => []
  | b :: rest =>
      odict_values (branch_dict (wall_clock env t) b) :: table_rows env (S t) rest
  end.

Definition header_keys : list string :=
  ["name"; "days_since_last_commit"; "author"; "message"; "timestamp"; "url"].

(** What [display_tabulate] prints for the branches [shown]. *)
Definition table_printed (env : Env) (w : World) (shown : list Branch.t) : World :=
  mk_World (S (length shown) + ticks w)
           (stdout w ++ [PrintText (tabulate env (table_rows env (ticks w) shown)
                                             header_keys)])
           (log w).

(** The one request [get_branches] sends. *)
Definition branches_request (self : Gitea.t) : Request.t :=
  Request.mk
    (Gitea._get_url self
       (fstr (Gitea._owner self) +:+ "/" +:+ fstr (Gitea._repository self)
        +:+ "/branches"))
    (Gitea._headers self) (Gitea.session_auth self) (Gitea.session_verify self).

(** What [json.loads(request.text)] gives [get_branches] to return. *)
Definition decoded (env : Env) (r : Response.t) : result pyval :=
  match json_loads env (Response.text r) with
  | Some v => Ok v
  | None => Raise JSONDecodeError
  end.

(** The least and the greatest number of characters a match consumes. *)
Fixpoint regex_min_len (r : regex) : nat :=
  match r with
  | REmpty => 0
  | RChar _ | RDigit | RRange _ _ => 1
  | RSeq r1 r2 => regex_min_len r1 + regex_min_len r2
  | RAlt r1 r2 => Nat.min (regex_min_len r1) (regex_min_len r2)
  | RGroup _ r1 => regex_min_len r1
  end.

Fixpoint regex_max_len (r : regex) : nat :=
  match r with
  | REmpty => 0
  | RChar _ | RDigit | RRange _ _ => 1
  | RSeq r1 r2 => regex_max_len r1 + regex_max_len r2
  | RAlt r1 r2 => Nat.max (regex_max_len r1) (regex_max_len r2)
  | RGroup _ r1 => regex_max_len r1
  end.

(** The regular expression of the format ["%Y-%m-%dT%H:%M:%S"]. *)
Definition timestamp_regex : regex :=
  RSeq TimeRE_Y (RSeq (RChar "-")
  (RSeq TimeRE_m (RSeq (RChar "-")
  (RSeq TimeRE_d (RSeq (RChar "T")
  (RSeq TimeRE_H (RSeq (RChar ":")
  (RSeq TimeRE_M (RSeq (RChar ":")
  (RSeq TimeRE_S REmpty)))))))))).

(** The timestamp text [YYYY-MM-DDTHH:MM:SS] of a date-time. *)
Definition isoformat (t : datetime) : string :=
  zero_pad 4 (year t) +:+ "-" +:+ zero_pad 2 (month t) +:+ "-"
  +:+ zero_pad 2 (day t) +:+ "T" +:+ zero_pad 2 (hour t) +:+ ":"
  +:+ zero_pad 2 (minute t) +:+ ":" +:+ zero_pad 2 (second t).

(** A record of the wire shape: every field present, the strings given. *)
Definition well_formed_record (r : pyval)
  (name author message url timestamp : string) : Prop :=
  exists d c a : gmap string pyval,
    r = PyDict d
    /\ d !! "name" = Some (PyStr name)
    /\ d !! "commit" = Some (PyDict c)
    /\ c !! "author" = Some (PyDict a)
    /\ a !! "name" = Some (PyStr author)
    /\ c !! "message" = Some (PyStr message)
    /\ c !! "url" = Some (PyStr url)
    /\ c !! "timestamp" = Some (PyStr timestamp)
    /\ is_ok (strptime (str_slice_to timestamp (-6)) "%Y-%m-%dT%H:%M:%S") = true.

(** Values that [v[:90]] accepts. *)
Definition sliceable (v : pyval) : bool :=
  match v with
  | PyStr _ | PyList _ => true
  | _ => false
  end.

(** * Sample values *)

Definition world0 : World := mk_World 0 [] [].

Definition example_now : datetime := mk_datetime 2023 7 1 12 0 0 0.

(** A stand-in for [tabulate]: the headers, then the first cell of each
    row. *)
Definition example_tabulate (data : list (list pyval)) (headers : list string)
  : string :=
  String.concat "|" headers
  +:+ String.concat ""
        (map (fun row => match row with
                         | PyStr s :: _ => "/" +:+ s
                         | _ => "/?"
                         end) data).

Definition example_commit_record (message timestamp : string) : pyval :=
  PyDict (list_to_map
            [("author", PyDict (list_to_map [("name", PyStr "alice")]));
             ("message", PyStr message);
             ("timestamp", PyStr timestamp);
             ("url", PyStr "https://git.example/commit/1")]).

Definition named_record (name message timestamp : string) : pyval :=
  PyDict (list_to_map
            [("name", PyStr name);
             ("commit", example_commit_record message timestamp)]).

Definition example_record (message timestamp : string) : pyval :=
  named_record "main" message timestamp.

(** Records that leave out the branch name, the author's name and the
    message. *)
Definition record_without_name : pyval :=
  PyDict (list_to_map
            [("commit", example_commit_record "fix" "2023-06-22T10:15:30+00:00")]).

Definition record_without_author_name : pyval :=
  PyDict (list_to_map
            [("name", PyStr "main");
             ("commit",
              PyDict (list_to_map
                        [("author", PyDict ∅);
                         ("message", PyStr "fix");
                         ("timestamp", PyStr "2023-06-22T10:15:30+00:00")]))]).

Definition record_without_message : pyval :=
  PyDict (list_to_map
            [("name", PyStr "main");
             ("commit",
              PyDict (list_to_map
                        [("author", PyDict (list_to_map [("name", PyStr "alice")]));
                         ("timestamp", PyStr "2023-06-22T10:15:30+00:00");
                         ("url", PyStr "https://git.example/commit/1")]))]).

Definition example_branch (name : string) (ts : datetime) : Branch.t :=
  Branch.mk (PyStr name)
            (Commit.mk (PyStr ("https://git.example/commit/" +:+ name))
                       (PyStr "alice") (PyStr ("work on " +:+ name)) ts).

(** Three branches whose last commits are 2, 40 and 100 days before
    [example_now]. *)
Definition branch_2_days : Branch.t :=
  example_branch "fresh" (mk_datetime 2023 6 29 12 0 0 0).
Definition branch_40_days : Branch.t :=
  example_branch "stale" (mk_datetime 2023 5 22 12 0 0 0).
Definition branch_100_days : Branch.t :=
  example_branch "old" (mk_datetime 2023 3 23 12 0 0 0).
Definition example_branches : list Branch.t :=
  [branch_2_days; branch_40_days; branch_100_days].

Definition example_gitea : Gitea.t :=
  BranchActivityReport.Gitea__init__
    (Some "https://git.example") (Some "t0ken") (Some "rls") (Some "platform")
    false.

Definition example_args : BranchActivityReport.Namespace :=
  BranchActivityReport.mk_Namespace
    (Some "t0ken") (Some "https://git.example") (Some "rls") (Some "platform")
    (Some 30).

(** No server at all: every request fails. *)
Definition example_env : Env :=
  mk_Env (fun _ => example_now) example_tabulate
         (fun _ => Raise RequestException) (fun _ => None).

(** A server that answers 404. *)
Definition not_found_env : Env :=
  mk_Env (fun _ => example_now) example_tabulate
         (fun req => Ok (Response.mk 404 (Request.url req) "Not Found"))
         (fun _ => None).

(** A server that answers 200 with an empty list of branches. *)
Definition empty_repository_env : Env :=
  mk_Env (fun _ => example_now) example_tabulate
         (fun req => Ok (Response.mk 200 (Request.url req) "[]"))
         (fun text => if String.eqb text "[]" then Some (PyList []) else None).

(** A server that lists three branches, last committed to 2, 40 and 100
    days before [example_now]. *)
Definition three_branches_env : Env :=
  mk_Env (fun _ => example_now) example_tabulate
         (fun req => Ok (Response.mk 200 (Request.url req) "[...]"))
         (fun _ => Some (PyList
                           [named_record "fresh" "a" "2023-06-29T12:00:00+02:00";
                            named_record "stale" "b" "2023-05-22T12:00:00+02:00";
                            named_record "old" "c" "2023-03-23T12:00:00+02:00"])).

(** * Further specification-side definitions *)

(** One day in microseconds. *)
Definition day_microseconds : Z := 86400000000.

(** The cell of the column [days_since_last_commit] in a row. *)
Definition days_cell (row : odict) : option pyval :=
  odict_get "days_since_last_commit" row.


(** [days_since_last_commit] of a branch when the clock reads [N]. *)
Definition days_at (N : datetime) (b : Branch.t) : Z :=
  days (datetime_sub N (commit_timestamp b)).

(** The [i]-th column of a table. *)
Definition column (i : nat) (rows : list (list pyval)) : list pyval :=
  map (fun row => nth i row PyNone) rows.

(** The timestamp of a branch is a date of the calendar and a time of day. *)
Definition valid_branch (b : Branch.t) : Prop :=
  datetime_valid (commit_timestamp b) = true.

(** The branches [display_tabulate] shows. *)
Definition shown_branches (sort_by_datetime : bool) (bs : list Branch.t)
  : list Branch.t :=
  if sort_by_datetime then sorted commit_timestamp datetime_lt bs else bs.

(** The cell in row [i] and column [j] of a table. *)
Definition cell (rows : list (list pyval)) (i j : nat) : option pyval :=
  rows !! i ≫= (fun row => row !! j).

(** The outcome of a run: one table printed, or one exception reported. *)
Inductive outcome (before after : list printed) (log_before log_after : list exn)
  : Prop :=
| table_shown (text : string) :
    after = before ++ [PrintText text] -> log_after = log_before ->
    outcome before after log_before log_after
| exception_logged (e : exn) :
    after = before -> log_after = log_before ++ [e] ->
    outcome before after log_before log_after.

(** * Further sample values *)

(** The branch that the mapper builds from [named_record]. *)
Definition mapped_branch (name message : string) (ts : datetime) : Branch.t :=
  Branch.mk (PyStr name)
            (Commit.mk (PyStr "https://git.example/commit/1") (PyStr "alice")
                       (PyStr message) ts).

Definition three_records : list pyval :=
  [named_record "fresh" "a" "2023-06-29T12:00:00+02:00";
   named_record "stale" "b" "2023-05-22T12:00:00+02:00";
   named_record "old" "c" "2023-03-23T12:00:00+02:00"].

Definition three_mapped : list Branch.t :=
  [mapped_branch "fresh" "a" (mk_datetime 2023 6 29 12 0 0 0);
   mapped_branch "stale" "b" (mk_datetime 2023 5 22 12 0 0 0);
   mapped_branch "old" "c" (mk_datetime 2023 3 23 12 0 0 0)].

Definition three_branches_response : Response.t :=
  Response.mk 200 "https://git.example/api/v1/repos/rls/platform/branches" "[...]".


(** * Properties *)

#[local] Arguments strptime : simpl never.
#[local] Arguments str_slice_to : simpl never.
#[local] Arguments strftime : simpl never.

(** ** Tuple comparison *)

Lemma lex_cmp_refl (a : list Z) : lex_cmp a a = Eq.
Proof.
  induction a as [|x a IH]; simpl; [reflexivity|].
  now rewrite Z.compare_refl.
Qed.

Lemma lex_cmp_antisym (a b : list Z) : lex_cmp b a = CompOpp (lex_cmp a b).
Proof.
  revert b; induction a as [|x a IH]; intros [|y b]; simpl; try reflexivity.
  rewrite (Z.compare_antisym x y).
  destruct (x ?= y); simpl; auto.
Qed.

Lemma lex_cmp_eq (a b : list Z) : lex_cmp a b = Eq -> a = b.
Proof.
  revert b; induction a as [|x a IH]; intros [|y b]; simpl; try congruence.
  destruct (Z.compare_spec x y) as [->| |]; try discriminate.
  intros H; f_equal; auto.
Qed.

Lemma lex_cmp_le_trans (a b c : list Z) :
  lex_cmp a b <> Gt -> lex_cmp b c <> Gt -> lex_cmp a c <> Gt.
Proof.
  revert b c; induction a as [|x a IH]; intros [|y b] [|z c]; simpl;
    try congruence.
  destruct (Z.compare_spec x y), (Z.compare_spec y z), (Z.compare_spec x z);
    subst; try congruence; try lia; eauto.
Qed.

Lemma datetime_state_inj (a b : datetime) :
  datetime_state a = datetime_state b -> a = b.
Proof.
  destruct a, b; unfold datetime_state; simpl; intros H.
  injection H; intros; subst; reflexivity.
Qed.

Lemma datetime_cmp_eq (a b : datetime) : datetime_cmp a b = Eq <-> a = b.
Proof.
  split.
  - intros H; apply datetime_state_inj, lex_cmp_eq, H.
  - intros ->; apply lex_cmp_refl.
Qed.

Lemma datetime_le_trans (a b c : datetime) :
  datetime_le a b -> datetime_le b c -> datetime_le a c.
Proof. unfold datetime_le, datetime_cmp; apply lex_cmp_le_trans. Qed.

Lemma datetime_lt_le (a b : datetime) : datetime_lt a b = true -> datetime_le a b.
Proof.
  unfold datetime_lt, datetime_le; destruct (datetime_cmp a b); congruence.
Qed.

Lemma datetime_not_lt_le (a b : datetime) :
  datetime_lt a b = false -> datetime_le b a.
Proof.
  unfold datetime_lt, datetime_le, datetime_cmp.
  rewrite (lex_cmp_antisym (datetime_state a) (datetime_state b)).
  destruct (lex_cmp (datetime_state a) (datetime_state b)); simpl; congruence.
Qed.

Lemma datetime_lt_neq (a b : datetime) : datetime_lt a b = true -> a <> b.
Proof.
  unfold datetime_lt; intros H ->.
  unfold datetime_cmp in H; rewrite lex_cmp_refl in H; discriminate.
Qed.

(** ** Durations *)

Lemma timedelta_norm_normal (d s us : Z) : timedelta_normal (timedelta_norm d s us).
Proof.
  unfold timedelta_normal, timedelta_norm; simpl.
  split; apply Z.mod_pos_bound; lia.
Qed.

Lemma timedelta_norm_total (d s us : Z) :
  total_microseconds (timedelta_norm d s us) = (d * 86400 + s) * 1000000 + us.
Proof.
  unfold total_microseconds, timedelta_norm; simpl.
  pose proof (Z.div_mod us 1000000 ltac:(lia)).
  pose proof (Z.div_mod (s + us / 1000000) 86400 ltac:(lia)).
  lia.
Qed.

Lemma datetime_sub_normal (a b : datetime) : timedelta_normal (datetime_sub a b).
Proof. apply timedelta_norm_normal. Qed.

Lemma datetime_sub_total (a b : datetime) :
  total_microseconds (datetime_sub a b)
  = datetime_microseconds a - datetime_microseconds b.
Proof.
  unfold datetime_sub; rewrite timedelta_norm_total.
  unfold datetime_microseconds; lia.
Qed.

(** On normalised durations the tuple order is the order of the lengths. *)
Lemma timedelta_cmp_total (a b : timedelta) :
  timedelta_normal a -> timedelta_normal b ->
  timedelta_cmp a b = (total_microseconds a ?= total_microseconds b).
Proof.
  destruct a as [d1 s1 u1], b as [d2 s2 u2].
  unfold timedelta_normal, timedelta_cmp, timedelta_state, total_microseconds;
    simpl; intros [Hs1 Hu1] [Hs2 Hu2].
  destruct (Z.compare_spec d1 d2), (Z.compare_spec s1 s2),
    (Z.compare_spec u1 u2); subst; symmetry;
    first [ apply Z.compare_eq_iff | apply Z.compare_lt_iff
          | apply Z.compare_gt_iff ]; nia.
Qed.

Lemma timedelta_ge_lt (a b : timedelta) : timedelta_ge a b = negb (timedelta_lt a b).
Proof. unfold timedelta_ge, timedelta_lt; destruct (timedelta_cmp a b); reflexivity. Qed.

Lemma timedelta_ge_total (a b : timedelta) :
  timedelta_normal a -> timedelta_normal b ->
  timedelta_ge a b = true <-> total_microseconds b <= total_microseconds a.
Proof.
  intros Ha Hb; unfold timedelta_ge; rewrite (timedelta_cmp_total a b Ha Hb).
  destruct (Z.compare_spec (total_microseconds a) (total_microseconds b));
    split; intros; try congruence; try lia.
Qed.

Lemma timedelta_ge_refl (a : timedelta) : timedelta_ge a a = true.
Proof.
  unfold timedelta_ge, timedelta_cmp; now rewrite lex_cmp_refl.
Qed.

Lemma timedelta_new_normal (d s us : Z) (t : timedelta) :
  timedelta_new d s us = Ok t -> timedelta_normal t.
Proof.
  unfold timedelta_new.
  destruct (999999999 <? Z.abs (days (timedelta_norm d s us))); [discriminate|].
  intros [= <-]; apply timedelta_norm_normal.
Qed.

Lemma days_before_month_bounds (y m : Z) :
  1 <= m <= 12 -> 0 <= _days_before_month y m <= 335.
Proof.
  intros Hm; unfold _days_before_month.
  assert (Hk : exists k : nat, m = Z.of_nat k /\ (k < 13)%nat)
    by (exists (Z.to_nat m); lia).
  destruct Hk as (k & -> & Hk); rewrite Nat2Z.id.
  destruct ((2 <? Z.of_nat k) && _is_leap y);
    do 13 (destruct k as [|k]; [simpl; lia|]); lia.
Qed.

Lemma toordinal_bounds (t : datetime) :
  datetime_valid t = true -> 1 <= toordinal t <= 3652060.
Proof.
  unfold datetime_valid, _check_date_fields.
  rewrite !andb_true_iff, !Z.leb_le.
  intros [[[[[[Hy1 Hy2] Hm1] Hm2] Hd1] Hd2] _].
  assert (Hd3 : _days_in_month (year t) (month t) <= 31).
  { unfold _days_in_month.
    destruct ((month t =? 2) && _is_leap (year t)); [lia|].
    assert (Hk : exists k : nat, month t = Z.of_nat k /\ (k < 13)%nat)
      by (exists (Z.to_nat (month t)); lia).
    destruct Hk as (k & -> & Hk); rewrite Nat2Z.id.
    do 13 (destruct k as [|k]; [simpl; lia|]); lia. }
  pose proof (days_before_month_bounds (year t) (month t) ltac:(lia)).
  unfold toordinal, _ymd2ord, _days_before_year.
  pose proof (Z.div_mod (year t - 1) 4 ltac:(lia)).
  pose proof (Z.mod_pos_bound (year t - 1) 4 ltac:(lia)).
  pose proof (Z.div_mod (year t - 1) 100 ltac:(lia)).
  pose proof (Z.mod_pos_bound (year t - 1) 100 ltac:(lia)).
  pose proof (Z.div_mod (year t - 1) 400 ltac:(lia)).
  pose proof (Z.mod_pos_bound (year t - 1) 400 ltac:(lia)).
  lia.
Qed.

(** The difference of two valid date-times passes the range check of the
    [timedelta] constructor. *)
Lemma datetime_sub_in_range (a b : datetime) :
  datetime_valid a = true -> datetime_valid b = true ->
  Z.abs (days (datetime_sub a b)) <= 999999999.
Proof.
  intros Ha Hb.
  pose proof (toordinal_bounds a Ha); pose proof (toordinal_bounds b Hb).
  unfold datetime_valid, _check_time_fields in Ha, Hb.
  rewrite !andb_true_iff, !Z.leb_le in Ha, Hb.
  destruct Ha as [_ [[[[[[[? ?] ?] ?] ?] ?] ?] ?]].
  destruct Hb as [_ [[[[[[[? ?] ?] ?] ?] ?] ?] ?]].
  unfold datetime_sub, timedelta_norm; cbn [days].
  set (us := microsecond a - microsecond b).
  set (s := second a + minute a * 60 + hour a * 3600
            - (second b + minute b * 60 + hour b * 3600)).
  assert (-1 <= us / 1000000 <= 0).
  { pose proof (Z.div_mod us 1000000 ltac:(lia)).
    pose proof (Z.mod_pos_bound us 1000000 ltac:(lia)).
    unfold us in *; lia. }
  assert (-1 <= (s + us / 1000000) / 86400 <= 0).
  { pose proof (Z.div_mod (s + us / 1000000) 86400 ltac:(lia)).
    pose proof (Z.mod_pos_bound (s + us / 1000000) 86400 ltac:(lia)).
    unfold s in *; lia. }
  lia.
Qed.

(** ** Running the monad *)

Lemma advance_0 (w : World) : advance 0 w = w.
Proof. destruct w; unfold advance; simpl; now rewrite Nat.add_0_r. Qed.

Lemma advance_S (n : nat) (w : World) :
  advance n (mk_World (S (ticks w)) (stdout w) (log w)) = advance (S n) w.
Proof. unfold advance; simpl; f_equal; lia. Qed.

Lemma clock_reads_head (env : Env) (w : World) (n : nat) (N : datetime) :
  clock_reads env w (S n) N -> wall_clock env (ticks w) = N.
Proof. intros H; rewrite <- (H 0%nat) by lia; now rewrite Nat.add_0_r. Qed.

Lemma clock_reads_tail (env : Env) (w : World) (n : nat) (N : datetime) :
  clock_reads env w (S n) N ->
  clock_reads env (mk_World (S (ticks w)) (stdout w) (log w)) n N.
Proof.
  intros H i Hi; simpl.
  rewrite <- (H (S i)) by lia; f_equal; lia.
Qed.

Lemma is_active_run (env : Env) (w : World) (b : Branch.t) (T : timedelta) :
  Branch.is_active b T env w
  = (Ok (timedelta_lt (datetime_sub (wall_clock env (ticks w)) (commit_timestamp b)) T),
     mk_World (S (ticks w)) (stdout w) (log w)).
Proof. reflexivity. Qed.

Lemma inactive_at_lt (N : datetime) (T : timedelta) (b : Branch.t) :
  inactive_at N T b
  = negb (timedelta_lt (datetime_sub N (commit_timestamp b)) T).
Proof. unfold inactive_at; apply timedelta_ge_lt. Qed.

Lemma get_inactive_branches_run (env : Env) (T : timedelta) (N : datetime)
  (bs : list Branch.t) (name : string) :
  forall w : World,
    clock_reads env w (length bs) N ->
    Repository.get_inactive_branches (Repository.mk name bs) T env w
    = (Ok (List.filter (inactive_at N T) bs), advance (length bs) w).
Proof.
  unfold Repository.get_inactive_branches; simpl.
  induction bs as [|b bs IH]; intros w Hclock.
  - simpl; now rewrite advance_0.
  - simpl in Hclock.
    pose proof (clock_reads_head _ _ _ _ Hclock) as Hnow.
    pose proof (IH _ (clock_reads_tail _ _ _ _ Hclock)) as Hrest.
    cbn [comprehension_if length List.filter].
    unfold mbind at 1, M_bind at 1.
    unfold fmap at 1, M_fmap at 1.
    rewrite is_active_run, Hnow.
    unfold mbind at 1, M_bind at 1.
    rewrite Hrest, advance_S.
    rewrite <- inactive_at_lt.
    reflexivity.
Qed.

(** C1.  [get_inactive_branches] returns, in the order of the input, exactly
    the branches with [N - lastCommit.timestamp >= T], where [N] is what the
    clock reads during the query; a branch whose age equals [T] is inactive;
    the branches kept are those [is_active] rejects; and for a threshold in
    normal form (as every [timedelta] is) the test is the comparison of the
    two lengths of time in microseconds. *)
Theorem get_inactive_branches_spec (env : Env) (w : World) (name : string)
  (bs : list Branch.t) (T : timedelta) (N : datetime) :
  clock_reads env w (length bs) N ->
  Repository.get_inactive_branches (Repository.mk name bs) T env w
  = (Ok (List.filter (inactive_at N T) bs), advance (length bs) w)
  /\ (forall b : Branch.t,
         datetime_sub N (commit_timestamp b) = T -> inactive_at N T b = true)
  /\ (forall (b : Branch.t) (w0 : World),
         wall_clock env (ticks w0) = N ->
         fst (Branch.is_active b T env w0) = Ok (negb (inactive_at N T b)))
  /\ (timedelta_normal T ->
      forall b : Branch.t,
        inactive_at N T b = true
        <-> total_microseconds T
            <= datetime_microseconds N - datetime_microseconds (commit_timestamp b)).
Proof.
  intros Hclock; repeat split.
  - now apply get_inactive_branches_run.
  - intros b <-; apply timedelta_ge_refl.
  - intros b w0 Hnow; rewrite is_active_run; simpl.
    now rewrite Hnow, inactive_at_lt, negb_involutive.
  - unfold inactive_at; intros Hge.
    apply timedelta_ge_total in Hge; auto using datetime_sub_normal.
    now rewrite datetime_sub_total in Hge.
  - unfold inactive_at; intros Hle.
    apply timedelta_ge_total; auto using datetime_sub_normal.
    now rewrite datetime_sub_total.
Qed.

(** ** Slicing *)

Lemma str_take_length (n : nat) (s : string) :
  String.length (str_take n s) = Nat.min n (String.length s).
Proof.
  revert s; induction n as [|n IH]; intros [|c s]; simpl; auto.
Qed.

Lemma str_take_all (n : nat) (s : string) :
  (String.length s <= n)%nat -> str_take n s = s.
Proof.
  revert s; induction n as [|n IH]; intros [|c s]; simpl; auto; try lia.
  intros H; f_equal; apply IH; lia.
Qed.

Lemma str_take_drop (n : nat) (s : string) : str_take n s +:+ str_drop n s = s.
Proof.
  revert s; induction n as [|n IH]; intros [|c s]; simpl; auto.
  change (String c (str_take n s +:+ str_drop n s) = String c s).
  now rewrite IH.
Qed.

Lemma str_drop_length (n : nat) (s : string) :
  String.length (str_drop n s) = (String.length s - n)%nat.
Proof.
  revert s; induction n as [|n IH]; intros [|c s]; simpl; auto.
Qed.

Lemma str_take_take (n : nat) (s : string) : str_take n (str_take n s) = str_take n s.
Proof. apply str_take_all; rewrite str_take_length; lia. Qed.

Lemma slice_stop_index_nonneg (n : nat) (stop : Z) :
  0 <= stop -> slice_stop_index n stop = Nat.min (Z.to_nat stop) n.
Proof. unfold slice_stop_index; destruct (Z.ltb_spec stop 0); lia. Qed.

Lemma slice_stop_index_neg (n : nat) (stop : Z) :
  stop < 0 -> slice_stop_index n stop = (n - Z.to_nat (- stop))%nat.
Proof. unfold slice_stop_index; destruct (Z.ltb_spec stop 0); lia. Qed.

Lemma str_slice_to_90 (s : string) : str_slice_to s 90 = str_take 90 s.
Proof.
  unfold str_slice_to.
  rewrite slice_stop_index_nonneg by lia.
  change (Z.to_nat 90) with 90%nat.
  destruct (Nat.le_gt_cases 90 (String.length s)) as [H|H].
  - now rewrite Nat.min_l.
  - rewrite Nat.min_r by lia.
    rewrite !str_take_all; auto; lia.
Qed.

Lemma str_slice_to_minus_6 (s : string) :
  str_slice_to s (-6) = str_take (String.length s - 6) s.
Proof.
  unfold str_slice_to.
  now rewrite slice_stop_index_neg by lia.
Qed.

(** ** The mapper *)

Lemma dict_get_some (d : gmap string pyval) (key : string) (v : pyval) :
  d !! key = Some v -> dict_get d key = v.
Proof. unfold dict_get; now intros ->. Qed.

Lemma dict_get_none (d : gmap string pyval) (key : string) :
  d !! key = None -> dict_get d key = PyNone.
Proof. unfold dict_get; now intros ->. Qed.

(** When [parse_commit_result] returns, and what it returns. *)
Lemma parse_commit_result_ok (self : Gitea.t) (commit : pyval) (c : Commit.t) :
  Gitea.parse_commit_result self commit = Ok c
  <-> exists (d a : gmap string pyval) (t : string) (dt : datetime) (m : pyval),
      commit = PyDict d
      /\ d !! "author" = Some (PyDict a)
      /\ d !! "timestamp" = Some (PyStr t)
      /\ strptime (str_slice_to t (-6)) "%Y-%m-%dT%H:%M:%S" = Ok dt
      /\ py_slice_to (dict_get d "message") 90 = Ok m
      /\ c = Commit.mk (dict_get d "url") (dict_get a "name") m dt.
Proof.
  unfold Gitea.parse_commit_result, Commit.__init__.
  split.
  - destruct commit as [| | | | |l|d]; try discriminate.
    simpl.
    destruct (d !! "author") as [[| | | | | |a]|] eqn:Ha;
      try (rewrite (dict_get_some _ _ _ Ha); discriminate);
      try (rewrite (dict_get_none _ _ Ha); discriminate).
    rewrite (dict_get_some _ _ _ Ha); simpl.
    destruct (d !! "timestamp") as [[| | | |t| |]|] eqn:Ht;
      try (rewrite (dict_get_some _ _ _ Ht); discriminate);
      try (rewrite (dict_get_none _ _ Ht); discriminate).
    rewrite (dict_get_some _ _ _ Ht); simpl.
    destruct (strptime (str_slice_to t (-6)) "%Y-%m-%dT%H:%M:%S") as [dt|]
      eqn:Hdt; try discriminate.
    simpl.
    destruct (py_slice_to (dict_get d "message") 90) as [m|]
      eqn:Hm; try discriminate.
    simpl; intros [= <-].
    exists d, a, t, dt, m; repeat split; assumption.
  - intros (d & a & t & dt & m & -> & Ha & Ht & Hdt & Hm & ->).
    simpl.
    rewrite (dict_get_some _ _ _ Ha); simpl.
    rewrite (dict_get_some _ _ _ Ht); simpl.
    rewrite Hdt; simpl.
    now rewrite Hm.
Qed.

Lemma parse_branch_result_ok (self : Gitea.t) (r : pyval) (b : Branch.t) :
  Gitea.parse_branch_result self r = Ok b
  <-> exists (d : gmap string pyval) (c : Commit.t),
      r = PyDict d
      /\ Gitea.parse_commit_result self (dict_get d "commit") = Ok c
      /\ b = Branch.mk (dict_get d "name") c.
Proof.
  unfold Gitea.parse_branch_result, Branch.__init__.
  split.
  - destruct r as [| | | | |l|d]; try discriminate.
    simpl.
    destruct (Gitea.parse_commit_result self (dict_get d "commit")) as [c|]
      eqn:Hc; try discriminate.
    simpl; intros [= <-]; eauto.
  - intros (d & c & -> & Hc & ->); simpl; now rewrite Hc.
Qed.

Lemma commit_init_message (url author message : pyval) (ts : datetime)
  (c : Commit.t) :
  Commit.__init__ url author message ts = Ok c ->
  py_slice_to message 90 = Ok (Commit._message c).
Proof.
  unfold Commit.__init__.
  destruct (py_slice_to message 90) as [m|]; simpl; [|discriminate].
  now intros [= <-].
Qed.

Lemma py_slice_to_90_length (v m : pyval) :
  py_slice_to v 90 = Ok m -> (message_length m <= 90)%nat.
Proof.
  destruct v; simpl; try discriminate; intros [= <-]; simpl.
  - rewrite str_slice_to_90, str_take_length; lia.
  - rewrite length_take, slice_stop_index_nonneg by lia.
    change (Z.to_nat 90) with 90%nat; lia.
Qed.

(** C3.  A [Commit] built from a message string stores exactly its first 90
    characters: the stored text is a prefix of the message of length at most
    90; a message of at most 90 characters is stored unchanged and one of 200
    characters is cut to 90; truncating twice is truncating once; every
    [Commit] the constructor returns has a message of length at most 90; and
    the mapper stores the truncated [message] field of the record. *)
Theorem commit_message_first_90 (self : Gitea.t) (url author : pyval)
  (message : string) (ts : datetime) :
  Commit.__init__ url author (PyStr message) ts
  = Ok (Commit.mk url author (PyStr (str_take 90 message)) ts)
  /\ str_take 90 message +:+ str_drop 90 message = message
  /\ (String.length (str_take 90 message) <= 90)%nat
  /\ ((String.length message <= 90)%nat -> str_take 90 message = message)
  /\ (String.length message = 200%nat ->
      String.length (str_take 90 message) = 90%nat)
  /\ Commit.__init__ url author (PyStr (str_take 90 message)) ts
     = Commit.__init__ url author (PyStr message) ts
  /\ (forall (v : pyval) (c : Commit.t),
         Commit.__init__ url author v ts = Ok c ->
         (message_length (Commit._message c) <= 90)%nat)
  /\ (forall (d : gmap string pyval) (c : Commit.t),
         d !! "message" = Some (PyStr message) ->
         Gitea.parse_commit_result self (PyDict d) = Ok c ->
         Commit._message c = PyStr (str_take 90 message)).
Proof.
  assert (Hinit : forall m : string,
             Commit.__init__ url author (PyStr m) ts
             = Ok (Commit.mk url author (PyStr (str_take 90 m)) ts)).
  { intros m; unfold Commit.__init__; simpl; now rewrite str_slice_to_90. }
  repeat split.
  - apply Hinit.
  - apply str_take_drop.
  - rewrite str_take_length; lia.
  - apply str_take_all.
  - intros H; rewrite str_take_length, H; reflexivity.
  - now rewrite !Hinit, str_take_take.
  - intros v c H; apply commit_init_message in H.
    now apply py_slice_to_90_length in H.
  - intros d c Hm H.
    apply parse_commit_result_ok in H.
    destruct H as (d' & a & t & dt & m & [= <-] & _ & _ & _ & Hs & ->).
    rewrite (dict_get_some _ _ _ Hm) in Hs; simpl in Hs.
    rewrite str_slice_to_90 in Hs; injection Hs as <-; reflexivity.
Qed.

(** ** The loop over the records *)

Lemma parse_fold_raise (self : Gitea.t) (items : list pyval) (e : exn) :
  fold_left (Gitea.parse_step self) items (Raise e) = Raise e.
Proof. induction items as [|r items IH]; simpl; auto. Qed.

Lemma parse_step_ok (self : Gitea.t) (acc : list Branch.t) (r : pyval) :
  Gitea.parse_step self (Ok acc) r
  = match Gitea.parse_branch_result self r with
    | Ok b => Ok (acc ++ [b])
    | Raise e => Raise e
    end.
Proof. reflexivity. Qed.

Lemma parse_fold_ok (self : Gitea.t) (items : list pyval) :
  forall acc bs : list Branch.t,
    fold_left (Gitea.parse_step self) items (Ok acc) = Ok bs
    <-> exists bs' : list Branch.t,
        bs = acc ++ bs'
        /\ Forall2 (fun r b => Gitea.parse_branch_result self r = Ok b) items bs'.
Proof.
  induction items as [|r items IH]; intros acc bs; cbn [fold_left].
  - split.
    + intros [= <-]; exists []; split; [now rewrite app_nil_r | constructor].
    + intros (bs' & -> & H); inversion H; now rewrite app_nil_r.
  - rewrite parse_step_ok.
    destruct (Gitea.parse_branch_result self r) as [b|e] eqn:Hb.
    + rewrite IH; split.
      * intros (bs' & -> & H); exists (b :: bs'); split.
        -- now rewrite <- app_assoc.
        -- now constructor.
      * intros (bs' & -> & H); inversion H as [|? b' ? bs'' Hb' H']; subst.
        assert (b' = b) as -> by congruence.
        exists bs''; split; [now rewrite <- app_assoc | assumption].
    + rewrite parse_fold_raise; split; [discriminate|].
      intros (bs' & -> & H); inversion H; congruence.
Qed.

(** C10.  On a list of records [parse_repository_results] returns a list
    [bs] exactly when [bs] holds, position by position, the branch mapped
    from each record; so when every record maps, the result has one branch
    per record, the [i]-th branch being the one mapped from the [i]-th
    record. *)
Theorem parse_repository_results_pointwise (self : Gitea.t) (rs : list pyval) :
  (forall bs : list Branch.t,
      Gitea.parse_repository_results self (PyList rs) = Ok bs
      <-> Forall2 (fun r b => Gitea.parse_branch_result self r = Ok b) rs bs)
  /\ (Forall (fun r => exists b, Gitea.parse_branch_result self r = Ok b) rs ->
      exists bs : list Branch.t,
        Gitea.parse_repository_results self (PyList rs) = Ok bs
        /\ length bs = length rs
        /\ forall (i : nat) (r : pyval),
             rs !! i = Some r ->
             exists b : Branch.t,
               bs !! i = Some b /\ Gitea.parse_branch_result self r = Ok b).
Proof.
  assert (Hiff : forall bs : list Branch.t,
      Gitea.parse_repository_results self (PyList rs) = Ok bs
      <-> Forall2 (fun r b => Gitea.parse_branch_result self r = Ok b) rs bs).
  { intros bs; unfold Gitea.parse_repository_results; simpl.
    rewrite parse_fold_ok; simpl; split.
    - now intros (bs' & -> & H).
    - intros H; now exists bs. }
  split; [exact Hiff|].
  intros Hall.
  assert (Hex : exists bs,
             Forall2 (fun r b => Gitea.parse_branch_result self r = Ok b) rs bs).
  { clear Hiff; induction Hall as [|r rs [b Hb] _ [bs IH]].
    - exists []; constructor.
    - exists (b :: bs); now constructor. }
  destruct Hex as [bs Hbs]; exists bs; split; [now apply Hiff|]; split.
  - symmetry; eapply Forall2_length; eassumption.
  - intros i r Hi; eapply Forall2_lookup_l in Hbs; eauto.
Qed.

(** ** Sorting *)

Section SortedFacts.
Context {A K : Type} (key : A -> K) (lt : K -> K -> bool).
Context (le : K -> K -> Prop) (eqb : K -> K -> bool).
Hypothesis lt_le : forall a b, lt a b = true -> le a b.
Hypothesis not_lt_le : forall a b, lt a b = false -> le b a.
Hypothesis le_trans : forall a b c, le a b -> le b c -> le a c.
Hypothesis lt_neq : forall a b, lt a b = true -> a <> b.
Hypothesis eqb_eq : forall a b, eqb a b = true <-> a = b.

Let key_le (a b : A) : Prop := le (key a) (key b).

Lemma sorted_insert_perm (x : A) (l : list A) :
  Permutation (x :: l) (sorted_insert key lt x l).
Proof.
  induction l as [|y l IH]; simpl; [reflexivity|].
  destruct (lt (key y) (key x)); [|reflexivity].
  rewrite perm_swap; now constructor.
Qed.

Lemma sorted_perm (l : list A) : Permutation l (sorted key lt l).
Proof.
  induction l as [|x l IH]; simpl; [constructor|].
  rewrite <- sorted_insert_perm; now constructor.
Qed.

Lemma sorted_insert_sorted (x : A) (l : list A) :
  StronglySorted key_le l -> StronglySorted key_le (sorted_insert key lt x l).
Proof.
  induction 1 as [|y l Hl IH Hy]; simpl.
  - repeat constructor.
  - destruct (lt (key y) (key x)) eqn:Hlt.
    + constructor; [assumption|].
      rewrite <- sorted_insert_perm.
      constructor; [now apply lt_le | assumption].
    + apply not_lt_le in Hlt.
      constructor; [now constructor|].
      constructor; [assumption|].
      eapply Forall_impl; [exact Hy|].
      intros z Hz; unfold key_le in *; eauto.
Qed.

Lemma sorted_sorted (l : list A) : StronglySorted key_le (sorted key lt l).
Proof.
  induction l as [|x l IH]; simpl; [constructor|].
  now apply sorted_insert_sorted.
Qed.

Lemma sorted_insert_filter (k : K) (x : A) (l : list A) :
  List.filter (fun a => eqb (key a) k) (sorted_insert key lt x l)
  = List.filter (fun a => eqb (key a) k) (x :: l).
Proof.
  induction l as [|y l IH]; [reflexivity|].
  cbn [sorted_insert].
  destruct (lt (key y) (key x)) eqn:Hlt; [|reflexivity].
  cbn [List.filter] in *; rewrite IH.
  destruct (eqb (key x) k) eqn:Hx; [|reflexivity].
  destruct (eqb (key y) k) eqn:Hy; [|reflexivity].
  apply eqb_eq in Hx, Hy; apply lt_neq in Hlt; congruence.
Qed.

Lemma sorted_stable (k : K) (l : list A) :
  List.filter (fun a => eqb (key a) k) (sorted key lt l)
  = List.filter (fun a => eqb (key a) k) l.
Proof.
  induction l as [|x l IH]; [reflexivity|].
  cbn [sorted]; rewrite sorted_insert_filter.
  cbn [List.filter]; now rewrite IH.
Qed.
End SortedFacts.

Lemma datetime_eqb_eq (a b : datetime) : datetime_eqb a b = true <-> a = b.
Proof.
  unfold datetime_eqb; rewrite <- datetime_cmp_eq.
  destruct (datetime_cmp a b); split; congruence.
Qed.

Lemma datetime_le_total (a b : datetime) : datetime_le a b \/ datetime_le b a.
Proof.
  destruct (datetime_lt a b) eqn:H.
  - left; now apply datetime_lt_le.
  - right; now apply datetime_not_lt_le.
Qed.

(** ** Rendering *)

Lemma get_dict_run (env : Env) (w : World) (b : Branch.t) :
  Branch.get_dict b env w
  = (Ok (branch_dict (wall_clock env (ticks w)) b),
     mk_World (S (ticks w)) (stdout w) (log w)).
Proof. reflexivity. Qed.

Lemma rows_run (env : Env) (bs : list Branch.t) :
  forall w : World,
    comprehension (fun branch => odict_values <$> Branch.get_dict branch) bs env w
    = (Ok (table_rows env (ticks w) bs), advance (length bs) w).
Proof.
  induction bs as [|b bs IH]; intros w.
  - simpl; now rewrite advance_0.
  - cbn [comprehension table_rows length].
    unfold mbind at 1, M_bind at 1.
    unfold fmap at 1, M_fmap at 1.
    rewrite get_dict_run.
    unfold mbind at 1, M_bind at 1.
    rewrite IH, advance_S; reflexivity.
Qed.

Lemma display_run (env : Env) (w : World) (shown : list Branch.t) :
  shown <> [] ->
  (data ← comprehension (fun branch => odict_values <$> Branch.get_dict branch) shown;
   first ← lift (list_first shown);
   header ← Branch.get_dict first;
   env' ← ask;
   print (tabulate env' data (odict_keys header))) env w
  = (Ok tt, table_printed env w shown).
Proof.
  destruct shown as [|b0 rest]; [congruence|intros _].
  unfold mbind, M_bind.
  rewrite rows_run.
  unfold lift, list_first, ask, print.
  rewrite get_dict_run.
  unfold table_printed, advance.
  cbn [ticks stdout log length].
  change (odict_keys (branch_dict _ b0)) with header_keys.
  do 2 f_equal; lia.
Qed.

Lemma sorted_not_nil {A K : Type} (key : A -> K) (lt : K -> K -> bool) (l : list A) :
  l <> [] -> sorted key lt l <> [].
Proof.
  intros Hl Hs; apply Hl, Permutation_nil.
  rewrite <- Hs; symmetry; apply sorted_perm.
Qed.

(** C2.  For a non-empty sequence, [display_tabulate] with sorting on prints
    the table of the branches arranged by [sorted]: a permutation of the
    input, ascending by [lastCommit.timestamp], in which branches of equal
    timestamp keep their relative order; any two timestamps are comparable;
    timestamps 2023-01-05, 2023-01-01, 2023-01-03 come out as 01-01, 01-03,
    01-05; with sorting off the table follows the input order. *)
Theorem display_tabulate_order (env : Env) (w : World) (name : string)
  (bs : list Branch.t) :
  bs <> [] ->
  let shown := sorted commit_timestamp datetime_lt bs in
  Repository.display_tabulate (Repository.mk name bs) true env w
  = (Ok tt, table_printed env w shown)
  /\ Permutation bs shown
  /\ StronglySorted
       (fun a b => datetime_le (commit_timestamp a) (commit_timestamp b)) shown
  /\ (forall t : datetime,
         List.filter (fun b => datetime_eqb (commit_timestamp b) t) shown
         = List.filter (fun b => datetime_eqb (commit_timestamp b) t) bs)
  /\ (forall a b : datetime, datetime_le a b \/ datetime_le b a)
  /\ map commit_timestamp
         (sorted commit_timestamp datetime_lt
            [example_branch "a" (mk_datetime 2023 1 5 0 0 0 0);
             example_branch "b" (mk_datetime 2023 1 1 0 0 0 0);
             example_branch "c" (mk_datetime 2023 1 3 0 0 0 0)])
     = [mk_datetime 2023 1 1 0 0 0 0; mk_datetime 2023 1 3 0 0 0 0;
        mk_datetime 2023 1 5 0 0 0 0]
  /\ Repository.display_tabulate (Repository.mk name bs) false env w
     = (Ok tt, table_printed env w bs).
Proof.
  intros Hne shown; repeat split.
  - apply (display_run env w shown), sorted_not_nil, Hne.
  - apply sorted_perm.
  - apply (sorted_sorted commit_timestamp datetime_lt datetime_le);
      [exact datetime_lt_le | exact datetime_not_lt_le | exact datetime_le_trans].
  - intros t; apply (sorted_stable commit_timestamp datetime_lt datetime_eqb);
      [exact datetime_lt_neq | exact datetime_eqb_eq].
  - apply datetime_le_total.
  - apply (display_run env w bs), Hne.
Qed.

(** ** The request *)

Lemma get_branches_run (env : Env) (self : Gitea.t) (w : World) (r : Response.t) :
  requests_get env (branches_request self) = Ok r ->
  Gitea.get_branches self env w
  = (if negb (existsb (Z.eqb (Response.status_code r)) Gitea.accepted_status_codes)
     then Raise (Exception (Gitea.status_message r))
     else decoded env r, w).
Proof.
  intros Hr; unfold Gitea.get_branches, mbind, M_bind, ask, lift.
  fold (branches_request self); rewrite Hr.
  destruct (negb _); [reflexivity|].
  unfold decoded; destruct (json_loads env (Response.text r)); reflexivity.
Qed.

Lemma accepted_status (s : Z) :
  existsb (Z.eqb s) Gitea.accepted_status_codes = true <-> s = 200 \/ s = 2001.
Proof.
  unfold Gitea.accepted_status_codes; simpl.
  destruct (Z.eqb_spec s 200), (Z.eqb_spec s 2001); simpl; split; intros;
    try lia; try discriminate; auto.
Qed.

Lemma report_request_error (env : Env) (g : Gitea.t) (inactive_days : option Z)
  (w : World) (r : Response.t) :
  requests_get env (branches_request g) = Ok r ->
  Response.status_code r <> 200 -> Response.status_code r <> 2001 ->
  report g inactive_days env w = (Raise (Exception (Gitea.status_message r)), w).
Proof.
  intros Hr H1 H2; unfold report, mbind at 1, M_bind at 1.
  rewrite (get_branches_run env g w r Hr).
  destruct (existsb _ _) eqn:Hacc; [|reflexivity].
  apply accepted_status in Hacc; lia.
Qed.

(** C6.  For the response [r] to the request, [get_branches] raises the
    status exception exactly when the status code is neither 200 nor 2001;
    on 200 and 2001 it goes on to decode the body; on 404, as on every
    other code, both programs end with the exception reported (the one in
    the log, the other on standard output) and no table printed. *)
Theorem get_branches_status (env : Env) (self : Gitea.t) (w : World)
  (r : Response.t) :
  requests_get env (branches_request self) = Ok r ->
  let s := Response.status_code r in
  ((exists msg : string, fst (Gitea.get_branches self env w) = Raise (Exception msg))
   <-> ~ In s [200; 2001])
  /\ (In s [200; 2001] -> Gitea.get_branches self env w = (decoded env r, w))
  /\ (s = 404 ->
      Gitea.get_branches self env w
      = (Raise (Exception (Gitea.status_message r)), w))
  /\ (forall args : BranchActivityReport.Namespace,
         BranchActivityReport.Gitea__init__
           (BranchActivityReport.gitea_url args)
           (BranchActivityReport.access_token args)
           (BranchActivityReport.owner args)
           (BranchActivityReport.repository args) false = self ->
         ~ In s [200; 2001] ->
         BranchActivityReport.main args env w
         = (Ok tt, mk_World (ticks w) (stdout w)
                            (log w ++ [Exception (Gitea.status_message r)])))
  /\ (forall args : GiteaBranchActivity.Namespace,
         GiteaBranchActivity.Gitea__init__
           (GiteaBranchActivity.gitea_url args)
           (GiteaBranchActivity.auth_username args,
            GiteaBranchActivity.auth_password args)
           (GiteaBranchActivity.owner args)
           (GiteaBranchActivity.repository args) false = self ->
         ~ In s [200; 2001] ->
         GiteaBranchActivity.main args env w
         = (Ok tt,
            mk_World (ticks w)
                     (stdout w
                      ++ [PrintException "Exception"
                            (Exception (Gitea.status_message r))])
                     (log w))).
Proof.
  intros Hr s.
  assert (Hin : In s [200; 2001] <-> s = 200 \/ s = 2001).
  { simpl; intuition lia. }
  rewrite Hin.
  assert (Hbad : ~ (s = 200 \/ s = 2001) ->
                 Gitea.get_branches self env w
                 = (Raise (Exception (Gitea.status_message r)), w)).
  { intros H; rewrite (get_branches_run env self w r Hr).
    destruct (existsb _ _) eqn:Hacc; [|reflexivity].
    apply accepted_status in Hacc; contradiction. }
  assert (Hgood : s = 200 \/ s = 2001 ->
                  Gitea.get_branches self env w = (decoded env r, w)).
  { intros H; rewrite (get_branches_run env self w r Hr).
    apply accepted_status in H; fold s; now rewrite H. }
  split; [|split; [|split; [|split]]].
  - split.
    + intros [msg Hmsg] Hs; rewrite (Hgood Hs) in Hmsg; simpl in Hmsg.
      unfold decoded in Hmsg.
      destruct (json_loads env (Response.text r)); discriminate.
    + intros Hs; exists (Gitea.status_message r); now rewrite Hbad.
  - exact Hgood.
  - intros H404; apply Hbad; lia.
  - intros args <- Hs; unfold BranchActivityReport.main, try_except.
    rewrite (report_request_error _ _ _ _ r Hr);
      [reflexivity | intros E; apply Hs, Hin; now left
      | intros E; apply Hs, Hin; now right].
  - intros args <- Hs; unfold GiteaBranchActivity.main, try_except.
    rewrite (report_request_error _ _ _ _ r Hr);
      [reflexivity | intros E; apply Hs, Hin; now left
      | intros E; apply Hs, Hin; now right].
Qed.

(** C7.  On an empty branch sequence [display_tabulate] raises [IndexError]
    (it reads the header from the first branch) and prints nothing; a run
    against a repository without branches ends with that exception in the
    log and an empty standard output, not with a notice. *)
Theorem display_tabulate_empty (env : Env) (w : World) (name : string)
  (sort_by_datetime : bool) :
  Repository.display_tabulate (Repository.mk name []) sort_by_datetime env w
  = (Raise IndexError, w)
  /\ BranchActivityReport.main example_args empty_repository_env world0
     = (Ok tt, mk_World 0 [] [IndexError]).
Proof.
  split; [|reflexivity].
  destruct sort_by_datetime, w; reflexivity.
Qed.

Lemma strftime_display (t : datetime) :
  strftime t "%d-%m-%Y %H:%m"
  = zero_pad 2 (day t) +:+ "-" +:+ zero_pad 2 (month t) +:+ "-"
    +:+ zero_pad 4 (year t) +:+ " " +:+ zero_pad 2 (hour t) +:+ ":"
    +:+ zero_pad 2 (month t).
Proof.
  unfold strftime; cbn [parse_format map strftime_item Ascii.eqb Bool.eqb].
  cbn [String.concat]; reflexivity.
Qed.

(** C9.  The timestamp column is [strftime("%d-%m-%Y %H:%m")]: day, month
    and year, then the hour and, after the colon, the month again, since
    [%m] is the month; the minute is not shown.  2023-06-22 10:15:30 is
    rendered [22-06-2023 10:06]. *)
Theorem get_dict_timestamp_column :
  (forall c : Commit.t,
      odict_get "timestamp" (Commit.get_dict c)
      = Some (PyStr (strftime (Commit._timestamp c) "%d-%m-%Y %H:%m")))
  /\ (forall t : datetime,
         strftime t "%d-%m-%Y %H:%m"
         = zero_pad 2 (day t) +:+ "-" +:+ zero_pad 2 (month t) +:+ "-"
           +:+ zero_pad 4 (year t) +:+ " " +:+ zero_pad 2 (hour t) +:+ ":"
           +:+ zero_pad 2 (month t))
  /\ odict_get "timestamp"
       (Commit.get_dict
          (Commit.mk PyNone PyNone PyNone (mk_datetime 2023 6 22 10 15 30 0)))
     = Some (PyStr "22-06-2023 10:06").
Proof.
  split; [|split].
  - intros c; reflexivity.
  - exact strftime_display.
  - reflexivity.
Qed.

(** ** Reading the fields back *)

Lemma parse_branch_result_well_formed (self : Gitea.t) (r : pyval)
  (name author message url timestamp : string) :
  well_formed_record r name author message url timestamp ->
  exists dt : datetime,
    strptime (str_slice_to timestamp (-6)) "%Y-%m-%dT%H:%M:%S" = Ok dt
    /\ Gitea.parse_branch_result self r
       = Ok (Branch.mk (PyStr name)
               (Commit.mk (PyStr url) (PyStr author)
                          (PyStr (str_take 90 message)) dt)).
Proof.
  intros (d & c & a & -> & Hn & Hc & Ha & Han & Hm & Hu & Ht & Hok).
  destruct (strptime (str_slice_to timestamp (-6)) "%Y-%m-%dT%H:%M:%S")
    as [dt|] eqn:Hdt; [|discriminate].
  exists dt; split; [reflexivity|].
  apply parse_branch_result_ok.
  exists d, (Commit.mk (PyStr url) (PyStr author) (PyStr (str_take 90 message)) dt).
  split; [reflexivity|]; split.
  - rewrite (dict_get_some _ _ _ Hc).
    apply parse_commit_result_ok.
    exists c, a, timestamp, dt, (PyStr (str_take 90 message)).
    repeat split; try assumption.
    + rewrite (dict_get_some _ _ _ Hm); simpl; now rewrite str_slice_to_90.
    + now rewrite (dict_get_some _ _ _ Hu), (dict_get_some _ _ _ Han).
  - now rewrite (dict_get_some _ _ _ Hn).
Qed.

(** C8.  A well-formed record whose message has at most 90 characters maps
    to a branch, and the name read with [get_name] and the name, author,
    message and url read from [get_dict] (of the branch, at any moment, and
    of its commit) are the strings of the record. *)
Theorem record_round_trip (self : Gitea.t) (r : pyval)
  (name author message url timestamp : string) :
  well_formed_record r name author message url timestamp ->
  (String.length message <= 90)%nat ->
  exists b : Branch.t,
    Gitea.parse_branch_result self r = Ok b
    /\ Branch.get_name b = PyStr name
    /\ (let d := Commit.get_dict (Branch.get_last_commit b) in
        odict_get "author" d = Some (PyStr author)
        /\ odict_get "message" d = Some (PyStr message)
        /\ odict_get "url" d = Some (PyStr url))
    /\ (forall (env : Env) (w : World),
           exists d : odict,
             fst (Branch.get_dict b env w) = Ok d
             /\ odict_get "name" d = Some (PyStr name)
             /\ odict_get "author" d = Some (PyStr author)
             /\ odict_get "message" d = Some (PyStr message)
             /\ odict_get "url" d = Some (PyStr url)).
Proof.
  intros Hwf Hlen.
  destruct (parse_branch_result_well_formed self _ _ _ _ _ _ Hwf)
    as (dt & _ & Hb).
  rewrite (str_take_all 90 message Hlen) in Hb.
  eexists; split; [exact Hb|].
  split; [reflexivity|]; split.
  - repeat split; reflexivity.
  - intros env w; rewrite get_dict_run; eexists; split; [reflexivity|].
    repeat split; reflexivity.
Qed.

(** ** Matching *)

Lemma match_one_bounds (p : ascii -> bool) (s : string) (m : rmatched) :
  In m (match_one p s) ->
  s = m_text m +:+ m_rest m /\ String.length (m_text m) = 1%nat.
Proof.
  destruct s as [|x s]; simpl; [tauto|].
  destruct (p x); simpl; [|tauto].
  intros [<-|[]]; split; reflexivity.
Qed.

Lemma string_app_assoc (a b c : string) : (a +:+ b) +:+ c = a +:+ (b +:+ c).
Proof.
  induction a as [|x a IH]; [reflexivity|].
  change (String x ((a +:+ b) +:+ c) = String x (a +:+ (b +:+ c))).
  now rewrite IH.
Qed.

Lemma string_app_length (a b : string) :
  String.length (a +:+ b) = (String.length a + String.length b)%nat.
Proof.
  induction a as [|x a IH]; [reflexivity|].
  change (S (String.length (a +:+ b)) = S (String.length a + String.length b)).
  now rewrite IH.
Qed.

(** Every match splits the text into what it consumed and the rest, and
    consumes between [regex_min_len] and [regex_max_len] characters. *)
Lemma rmatch_bounds (r : regex) :
  forall (s : string) (m : rmatched),
    In m (rmatch r s) ->
    s = m_text m +:+ m_rest m
    /\ (regex_min_len r <= String.length (m_text m) <= regex_max_len r)%nat.
Proof.
  induction r as [|c| |lo hi|r1 IH1 r2 IH2|r1 IH1 r2 IH2|name r1 IH1];
    intros s m Hm; cbn [rmatch regex_min_len regex_max_len] in *.
  - destruct Hm as [<-|[]]; simpl; split; [reflexivity|lia].
  - apply match_one_bounds in Hm; destruct Hm as [? ->]; split; [assumption|lia].
  - apply match_one_bounds in Hm; destruct Hm as [? ->]; split; [assumption|lia].
  - apply match_one_bounds in Hm; destruct Hm as [? ->]; split; [assumption|lia].
  - apply in_flat_map in Hm; destruct Hm as (m1 & Hm1 & Hm).
    apply in_map_iff in Hm; destruct Hm as (m2 & <- & Hm2).
    destruct (IH1 _ _ Hm1) as [E1 B1], (IH2 _ _ Hm2) as [E2 B2].
    cbn [m_text m_rest]; split.
    + now rewrite string_app_assoc, <- E2.
    + rewrite string_app_length; lia.
  - apply in_app_or in Hm; destruct Hm as [Hm|Hm].
    + destruct (IH1 _ _ Hm); split; [assumption|lia].
    + destruct (IH2 _ _ Hm); split; [assumption|lia].
  - apply in_map_iff in Hm; destruct Hm as (m1 & <- & Hm1).
    destruct (IH1 _ _ Hm1); cbn [m_text m_rest]; split; [assumption|lia].
Qed.

(** A timestamp text that [strptime] accepts has 14 to 19 characters. *)
Lemma strptime_length (s : string) (dt : datetime) :
  strptime s "%Y-%m-%dT%H:%M:%S" = Ok dt ->
  (14 <= String.length s <= 19)%nat.
Proof.
  unfold strptime.
  destruct (format_regex (parse_format "%Y-%m-%dT%H:%M:%S")) as [re|] eqn:Hre;
    [|discriminate].
  vm_compute in Hre; injection Hre as <-.
  match goal with |- context [rmatch ?r s] => set (re := r) end.
  destruct (rmatch re s) as [|found ms] eqn:Hm; [discriminate|].
  destruct (m_rest found) eqn:Hrest; [|discriminate].
  intros _.
  destruct (rmatch_bounds re s found) as [E B].
  { rewrite Hm; now left. }
  change (regex_min_len re) with 14%nat in B.
  change (regex_max_len re) with 19%nat in B.
  rewrite E, Hrest, string_app_length; simpl; lia.
Qed.

(** ** Parsing the text of a date-time *)

Lemma head_flat_map {A B : Type} (f : A -> list B) (l : list A) (x : A) (y : B) :
  head l = Some x -> head (f x) = Some y -> head (flat_map f l) = Some y.
Proof.
  destruct l as [|x' l]; simpl; [discriminate|].
  intros [= ->]; destruct (f x); simpl; [discriminate|auto].
Qed.

Lemma head_map {A B : Type} (f : A -> B) (l : list A) (x : A) :
  head l = Some x -> head (map f l) = Some (f x).
Proof. destruct l; simpl; [discriminate|now intros [= ->]]. Qed.

Lemma rmatch_seq_head (r1 r2 : regex) (s : string) (x1 x2 : rmatched) :
  head (rmatch r1 s) = Some x1 ->
  head (rmatch r2 (m_rest x1)) = Some x2 ->
  head (rmatch (RSeq r1 r2) s)
  = Some (mk_rmatched (m_text x1 +:+ m_text x2) (m_groups x1 ++ m_groups x2)
                      (m_rest x2)).
Proof.
  intros H1 H2; cbn [rmatch].
  eapply head_flat_map; [exact H1|].
  now apply (head_map (fun m2 => mk_rmatched _ _ _)).
Qed.

Lemma rmatch_char_head (c : ascii) (rest : string) :
  head (rmatch (RChar c) (String c rest))
  = Some (mk_rmatched (String c EmptyString) [] rest).
Proof. cbn [rmatch match_one]; now rewrite Ascii.eqb_refl. Qed.

Lemma digit_char_spec (z : Z) :
  is_digit (digit_char z) = true /\ digit_value (digit_char z) = z mod 10.
Proof.
  unfold digit_char.
  pose proof (Z.mod_pos_bound z 10 ltac:(lia)) as Hz.
  assert (Hn : exists n : nat, z mod 10 = Z.of_nat n /\ (n < 10)%nat)
    by (exists (Z.to_nat (z mod 10)); lia).
  destruct Hn as (n & -> & Hn); rewrite Nat2Z.id.
  do 10 (destruct n as [|n]; [now vm_compute|]); lia.
Qed.

Lemma int_of_digits_app (s1 s2 : string) :
  forall acc : Z,
    int_of_digits acc (s1 +:+ s2) = int_of_digits (int_of_digits acc s1) s2.
Proof.
  induction s1 as [|c s1 IH]; intros acc; [reflexivity|].
  change (String c s1 +:+ s2) with (String c (s1 +:+ s2)).
  cbn [int_of_digits]; destruct (is_digit c); apply IH.
Qed.

Lemma int_of_digits_zero_pad (n : nat) :
  forall z : Z, 0 <= z < 10 ^ Z.of_nat n -> int_of_digits 0 (zero_pad n z) = z.
Proof.
  induction n as [|n IH]; intros z Hz.
  - simpl in *; lia.
  - cbn [zero_pad]; rewrite int_of_digits_app, IH.
    + cbn [int_of_digits].
      destruct (digit_char_spec z) as [-> ->].
      pose proof (Z.div_mod z 10 ltac:(lia)); lia.
    + rewrite Nat2Z.inj_succ, Z.pow_succ_r in Hz by lia.
      split; [apply Z.div_pos; lia|].
      apply Z.div_lt_upper_bound; lia.
Qed.

Lemma zero_pad_length (n : nat) (z : Z) : String.length (zero_pad n z) = n.
Proof.
  revert z; induction n as [|n IH]; intros z; [reflexivity|].
  cbn [zero_pad]; rewrite string_app_length, IH; simpl; lia.
Qed.

Lemma TimeRE_Y_head (y : Z) (rest : string) :
  head (rmatch TimeRE_Y (zero_pad 4 y +:+ rest))
  = Some (mk_rmatched (zero_pad 4 y) [("Y"%char, zero_pad 4 y)] rest).
Proof.
  cbv [zero_pad String.append TimeRE_Y].
  repeat (cbn [rmatch match_one flat_map map app m_text m_groups m_rest];
          rewrite ?(proj1 (digit_char_spec _))).
  reflexivity.
Qed.

Ltac two_digit_field v n :=
  let k := fresh "k" in
  let Hk := fresh "Hk" in
  assert (Hk : exists k : nat, v = Z.of_nat k /\ (k < n)%nat)
    by (exists (Z.to_nat v); lia);
  destruct Hk as (k & -> & Hk).

Lemma TimeRE_m_head (v : Z) (rest : string) :
  1 <= v <= 12 ->
  head (rmatch TimeRE_m (zero_pad 2 v +:+ rest))
  = Some (mk_rmatched (zero_pad 2 v) [("m"%char, zero_pad 2 v)] rest).
Proof.
  intros Hv; two_digit_field v 13%nat.
  do 13 (destruct k as [|k]; [try lia; now vm_compute|]); lia.
Qed.

Lemma TimeRE_d_head (v : Z) (rest : string) :
  1 <= v <= 31 ->
  head (rmatch TimeRE_d (zero_pad 2 v +:+ rest))
  = Some (mk_rmatched (zero_pad 2 v) [("d"%char, zero_pad 2 v)] rest).
Proof.
  intros Hv; two_digit_field v 32%nat.
  do 32 (destruct k as [|k]; [try lia; now vm_compute|]); lia.
Qed.

Lemma TimeRE_H_head (v : Z) (rest : string) :
  0 <= v <= 23 ->
  head (rmatch TimeRE_H (zero_pad 2 v +:+ rest))
  = Some (mk_rmatched (zero_pad 2 v) [("H"%char, zero_pad 2 v)] rest).
Proof.
  intros Hv; two_digit_field v 24%nat.
  do 24 (destruct k as [|k]; [now vm_compute|]); lia.
Qed.

Lemma TimeRE_M_head (v : Z) (rest : string) :
  0 <= v <= 59 ->
  head (rmatch TimeRE_M (zero_pad 2 v +:+ rest))
  = Some (mk_rmatched (zero_pad 2 v) [("M"%char, zero_pad 2 v)] rest).
Proof.
  intros Hv; two_digit_field v 60%nat.
  do 60 (destruct k as [|k]; [now vm_compute|]); lia.
Qed.

Lemma TimeRE_S_head (v : Z) (rest : string) :
  0 <= v <= 59 ->
  head (rmatch TimeRE_S (zero_pad 2 v +:+ rest))
  = Some (mk_rmatched (zero_pad 2 v) [("S"%char, zero_pad 2 v)] rest).
Proof.
  intros Hv; two_digit_field v 60%nat.
  do 60 (destruct k as [|k]; [now vm_compute|]); lia.
Qed.

Lemma timestamp_format_regex :
  format_regex (parse_format "%Y-%m-%dT%H:%M:%S") = Some timestamp_regex.
Proof. reflexivity. Qed.

Lemma string_app_nil_r (s : string) : s +:+ EmptyString = s.
Proof.
  induction s as [|c s IH]; [reflexivity|].
  change (String c (s +:+ EmptyString) = String c s); now rewrite IH.
Qed.

Lemma datetime_valid_ranges (t : datetime) :
  datetime_valid t = true ->
  1 <= year t <= 9999 /\ 1 <= month t <= 12 /\ 1 <= day t <= 31
  /\ 0 <= hour t <= 23 /\ 0 <= minute t <= 59 /\ 0 <= second t <= 59
  /\ 0 <= microsecond t <= 999999.
Proof.
  unfold datetime_valid, _check_date_fields, _check_time_fields.
  rewrite !andb_true_iff, !Z.leb_le.
  intros [[[[[[Hy1 Hy2] Hm1] Hm2] Hd1] Hd2] [[[[[[[Hh1 Hh2] Hi1] Hi2] Hs1] Hs2] Hu1] Hu2]].
  assert (_days_in_month (year t) (month t) <= 31).
  { unfold _days_in_month.
    destruct ((month t =? 2) && _is_leap (year t)); [lia|].
    two_digit_field (month t) 13%nat; rewrite Nat2Z.id.
    do 13 (destruct k as [|k]; [simpl; lia|]); lia. }
  lia.
Qed.

(** A directive followed by a separator and the rest of the format. *)
Lemma rmatch_field_sep (r rnext : regex) (sep name : ascii) (txt rest : string)
  (x : rmatched) :
  head (rmatch r (txt +:+ String sep rest))
  = Some (mk_rmatched txt [(name, txt)] (String sep rest)) ->
  head (rmatch rnext rest) = Some x ->
  head (rmatch (RSeq r (RSeq (RChar sep) rnext)) (txt +:+ String sep rest))
  = Some (mk_rmatched (txt +:+ String sep (m_text x)) ((name, txt) :: m_groups x)
                      (m_rest x)).
Proof.
  intros Hfield Hnext.
  apply (rmatch_seq_head r (RSeq (RChar sep) rnext) _ _
           (mk_rmatched (String sep (m_text x)) (m_groups x) (m_rest x)) Hfield).
  apply (rmatch_seq_head (RChar sep) rnext _ _ x (rmatch_char_head sep rest) Hnext).
Qed.

Lemma isoformat_unfold (t : datetime) :
  isoformat t
  = zero_pad 4 (year t) +:+ String "-" (zero_pad 2 (month t) +:+ String "-"
      (zero_pad 2 (day t) +:+ String "T" (zero_pad 2 (hour t) +:+ String ":"
         (zero_pad 2 (minute t) +:+ String ":"
            (zero_pad 2 (second t) +:+ EmptyString))))).
Proof. unfold isoformat; now rewrite string_app_nil_r. Qed.

(** The whole format on the text of a date-time: one match is found first,
    it consumes the text and captures its six fields. *)
Lemma timestamp_regex_head (t : datetime) :
  datetime_valid t = true ->
  head (rmatch timestamp_regex (isoformat t))
  = Some (mk_rmatched (isoformat t)
            [("Y"%char, zero_pad 4 (year t)); ("m"%char, zero_pad 2 (month t));
             ("d"%char, zero_pad 2 (day t)); ("H"%char, zero_pad 2 (hour t));
             ("M"%char, zero_pad 2 (minute t)); ("S"%char, zero_pad 2 (second t))]
            EmptyString).
Proof.
  intros Hvalid.
  destruct (datetime_valid_ranges t Hvalid) as (_ & Hm & Hd & Hh & Hmi & Hs & _).
  pose proof (rmatch_seq_head TimeRE_S REmpty _ _ _
                (TimeRE_S_head (second t) EmptyString Hs) eq_refl) as HS.
  cbn [m_text m_groups m_rest app] in HS.
  pose proof (rmatch_field_sep _ _ ":" _ _ _ _
                (TimeRE_M_head (minute t) _ Hmi) HS) as HM.
  cbn [m_text m_groups m_rest] in HM.
  pose proof (rmatch_field_sep _ _ ":" _ _ _ _
                (TimeRE_H_head (hour t) _ Hh) HM) as HH.
  cbn [m_text m_groups m_rest] in HH.
  pose proof (rmatch_field_sep _ _ "T" _ _ _ _
                (TimeRE_d_head (day t) _ Hd) HH) as HD.
  cbn [m_text m_groups m_rest] in HD.
  pose proof (rmatch_field_sep _ _ "-" _ _ _ _
                (TimeRE_m_head (month t) _ Hm) HD) as Hmo.
  cbn [m_text m_groups m_rest] in Hmo.
  pose proof (rmatch_field_sep _ _ "-" _ _ _ _
                (TimeRE_Y_head (year t) _) Hmo) as HY.
  cbn [m_text m_groups m_rest] in HY.
  rewrite isoformat_unfold; exact HY.
Qed.

(** The text of a valid date-time without microseconds is read back as that
    date-time. *)
Lemma strptime_isoformat (t : datetime) :
  datetime_valid t = true -> microsecond t = 0 ->
  strptime (isoformat t) "%Y-%m-%dT%H:%M:%S" = Ok t.
Proof.
  intros Hvalid Hus.
  destruct (datetime_valid_ranges t Hvalid) as (Hy & Hm & Hd & Hh & Hmi & Hs & _).
  pose proof (timestamp_regex_head t Hvalid) as Hhead.
  unfold strptime; rewrite timestamp_format_regex.
  destruct (rmatch timestamp_regex (isoformat t)) as [|found tl];
    [discriminate|].
  cbn [head] in Hhead.
  match type of Hhead with Some _ = Some ?x =>
    assert (found = x) as -> by congruence
  end.
  clear Hhead; cbn [m_rest m_groups].
  unfold group_int; cbn [group Ascii.eqb Bool.eqb].
  rewrite (int_of_digits_zero_pad 4), !(int_of_digits_zero_pad 2) by (simpl; lia).
  unfold datetime_new; unfold datetime_valid in Hvalid.
  apply andb_true_iff in Hvalid; destruct Hvalid as [-> Htime].
  rewrite Hus in Htime; rewrite Htime.
  destruct t; simpl in *; now subst.
Qed.

(** ** Stripping the offset *)

Lemma str_take_app (a b : string) : str_take (String.length a) (a +:+ b) = a.
Proof.
  induction a as [|c a IH]; [now destruct b|].
  change (String c (str_take (String.length a) (a +:+ b)) = String c a).
  now rewrite IH.
Qed.

Lemma str_slice_to_offset (prefix offset : string) :
  String.length offset = 6%nat -> str_slice_to (prefix +:+ offset) (-6) = prefix.
Proof.
  intros H; rewrite str_slice_to_minus_6, string_app_length, H.
  replace (String.length prefix + 6 - 6)%nat with (String.length prefix) by lia.
  apply str_take_app.
Qed.

Lemma str_take_0 (s : string) : str_take 0 s = EmptyString.
Proof. now destruct s. Qed.

(** C4, the claim as worded fails twice: a text of fewer than 6 characters
    does not lose 6 characters, and the sample input has 25 characters. *)
Lemma timestamp_strip_counterexample :
  ~ (forall ts : string,
        exists suffix : string,
          String.length suffix = 6%nat /\ ts = str_slice_to ts (-6) +:+ suffix)
  /\ String.length "2023-06-22T10:15:30+00:00" <> 26%nat.
Proof.
  split; [|vm_compute; discriminate].
  intros H; destruct (H "abc") as (suffix & Hlen & Heq).
  apply (f_equal String.length) in Heq.
  rewrite string_app_length, Hlen in Heq; vm_compute in Heq; lia.
Qed.

(** C4, amended.  The mapper cuts the last 6 characters off a timestamp of
    at least 6 characters, whatever they are (a shorter text is cut to the
    empty text), and the stored timestamp is what [strptime] reads from the
    remainder under [%Y-%m-%dT%H:%M:%S]; the text of a valid date-time
    followed by any 6 characters is read as that date-time, no offset
    applied; the 25-character input [2023-06-22T10:15:30+00:00] is cut to
    [2023-06-22T10:15:30] and read as 2023-06-22 10:15:30. *)
Theorem timestamp_strip_and_parse (self : Gitea.t) (ts : string) :
  ((6 <= String.length ts)%nat ->
   exists suffix : string,
     String.length suffix = 6%nat /\ ts = str_slice_to ts (-6) +:+ suffix)
  /\ ((String.length ts < 6)%nat -> str_slice_to ts (-6) = EmptyString)
  /\ (forall (d : gmap string pyval) (c : Commit.t),
         d !! "timestamp" = Some (PyStr ts) ->
         Gitea.parse_commit_result self (PyDict d) = Ok c ->
         strptime (str_slice_to ts (-6)) "%Y-%m-%dT%H:%M:%S"
         = Ok (Commit._timestamp c))
  /\ (forall (t : datetime) (offset : string),
         datetime_valid t = true -> microsecond t = 0 ->
         String.length offset = 6%nat ->
         ts = isoformat t +:+ offset ->
         str_slice_to ts (-6) = isoformat t
         /\ strptime (str_slice_to ts (-6)) "%Y-%m-%dT%H:%M:%S" = Ok t)
  /\ String.length "2023-06-22T10:15:30+00:00" = 25%nat
  /\ str_slice_to "2023-06-22T10:15:30+00:00" (-6) = "2023-06-22T10:15:30"
  /\ strptime (str_slice_to "2023-06-22T10:15:30+00:00" (-6)) "%Y-%m-%dT%H:%M:%S"
     = Ok (mk_datetime 2023 6 22 10 15 30 0).
Proof.
  split; [|split; [|split; [|split; [|split; [|split]]]]].
  - intros Hlen; exists (str_drop (String.length ts - 6) ts); split.
    + rewrite str_drop_length; lia.
    + now rewrite str_slice_to_minus_6, str_take_drop.
  - intros Hlen; rewrite str_slice_to_minus_6.
    replace (String.length ts - 6)%nat with 0%nat by lia; apply str_take_0.
  - intros d c Hts Hc; apply parse_commit_result_ok in Hc.
    destruct Hc as (d' & a & t & dt & m & [= <-] & _ & Ht & Hdt & _ & ->).
    rewrite Hts in Ht; injection Ht as <-; exact Hdt.
  - intros t offset Hvalid Hus Hlen ->.
    rewrite (str_slice_to_offset _ _ Hlen); split; [reflexivity|].
    now apply strptime_isoformat.
  - reflexivity.
  - reflexivity.
  - reflexivity.
Qed.

(** ** Failures of the mapper *)

(** C5, the claim as worded fails: a record without a name, and one whose
    author object has no name, map to a branch; a timestamp that keeps 14
    characters is parsed; a record without a message does not map. *)
Lemma mapping_error_counterexample :
  (exists b : Branch.t,
      Gitea.parse_branch_result example_gitea record_without_name = Ok b
      /\ Branch.get_name b = PyNone)
  /\ (exists b : Branch.t,
         Gitea.parse_branch_result example_gitea record_without_author_name = Ok b
         /\ Commit._author (Branch.get_last_commit b) = PyNone)
  /\ (String.length (str_slice_to "2023-6-2T1:5:3+00:00" (-6)) = 14%nat
      /\ is_ok (Gitea.parse_branch_result example_gitea
                  (example_record "fix" "2023-6-2T1:5:3+00:00")) = true)
  /\ Gitea.parse_branch_result example_gitea record_without_message
     = Raise TypeError.
Proof.
  split; [|split; [|split]].
  - eexists; split; [vm_compute; reflexivity|reflexivity].
  - eexists; split; [vm_compute; reflexivity|reflexivity].
  - split; vm_compute; reflexivity.
  - vm_compute; reflexivity.
Qed.

Lemma is_ok_true {A : Type} (r : result A) :
  is_ok r = true <-> exists a : A, r = Ok a.
Proof.
  destruct r; simpl; split; eauto; try discriminate.
  intros [a Ha]; discriminate.
Qed.

Lemma py_slice_to_sliceable (v : pyval) (stop : Z) :
  is_ok (py_slice_to v stop) = sliceable v.
Proof. destruct v; reflexivity. Qed.

Lemma strptime_raise (s format : string) (e : exn) :
  strptime s format = Raise e -> e = ValueError.
Proof.
  unfold strptime, datetime_new.
  destruct (format_regex _); [|congruence].
  destruct (rmatch _ _) as [|found tl]; [congruence|].
  destruct (m_rest found); [|congruence].
  destruct (_check_date_fields _ _ _ && _check_time_fields _ _ _ _);
    congruence.
Qed.

Lemma parse_commit_result_raise (self : Gitea.t) (commit : pyval) (e : exn) :
  Gitea.parse_commit_result self commit = Raise e ->
  e = AttributeError \/ e = TypeError \/ e = ValueError.
Proof.
  unfold Gitea.parse_commit_result, Commit.__init__.
  destruct commit as [| | | | |l|d]; simpl; try (intros [= <-]; auto).
  destruct (dict_get d "author"); simpl; try (intros [= <-]; auto).
  destruct (dict_get d "timestamp") as [| | | |t|l|d']; simpl;
    try (intros [= <-]; auto).
  destruct (strptime (str_slice_to t (-6)) "%Y-%m-%dT%H:%M:%S") as [dt|e']
    eqn:Hdt; simpl.
  - destruct (dict_get d "message"); simpl; intros [= <-]; auto.
  - intros [= <-]; apply strptime_raise in Hdt; auto.
Qed.

(** C5, amended.  A raw record maps to a branch exactly when it is an object
    with a nested commit object that holds a nested author object, a string
    timestamp whose text without the last 6 characters [strptime] accepts,
    and a message that can be sliced; otherwise [AttributeError],
    [TypeError] or [ValueError] is raised, in particular [AttributeError]
    without the commit or the author object and [ValueError] for a
    timestamp [strptime] refuses, as it does whenever fewer than 14 or more
    than 19 characters remain.  The name of the branch and the name in the
    author object are not required: without them the branch holds [None]. *)
Theorem parse_branch_result_failures (self : Gitea.t) (r : pyval) :
  (is_ok (Gitea.parse_branch_result self r) = true
   <-> exists (d c a : gmap string pyval) (t : string),
       r = PyDict d
       /\ d !! "commit" = Some (PyDict c)
       /\ c !! "author" = Some (PyDict a)
       /\ c !! "timestamp" = Some (PyStr t)
       /\ is_ok (strptime (str_slice_to t (-6)) "%Y-%m-%dT%H:%M:%S") = true
       /\ sliceable (dict_get c "message") = true)
  /\ (forall e : exn,
         Gitea.parse_branch_result self r = Raise e ->
         e = AttributeError \/ e = TypeError \/ e = ValueError)
  /\ (forall d : gmap string pyval,
         r = PyDict d -> d !! "commit" = None ->
         Gitea.parse_branch_result self r = Raise AttributeError)
  /\ (forall d c : gmap string pyval,
         r = PyDict d -> d !! "commit" = Some (PyDict c) ->
         c !! "author" = None ->
         Gitea.parse_branch_result self r = Raise AttributeError)
  /\ (forall (d c a : gmap string pyval) (t : string),
         r = PyDict d -> d !! "commit" = Some (PyDict c) ->
         c !! "author" = Some (PyDict a) ->
         c !! "timestamp" = Some (PyStr t) ->
         is_ok (strptime (str_slice_to t (-6)) "%Y-%m-%dT%H:%M:%S") = false ->
         Gitea.parse_branch_result self r = Raise ValueError)
  /\ (forall t : string,
         ~ (14 <= String.length (str_slice_to t (-6)) <= 19)%nat ->
         is_ok (strptime (str_slice_to t (-6)) "%Y-%m-%dT%H:%M:%S") = false)
  /\ (forall (d : gmap string pyval) (b : Branch.t),
         r = PyDict d -> d !! "name" = None ->
         Gitea.parse_branch_result self r = Ok b ->
         Branch.get_name b = PyNone)
  /\ (forall (d c a : gmap string pyval) (b : Branch.t),
         r = PyDict d -> d !! "commit" = Some (PyDict c) ->
         c !! "author" = Some (PyDict a) -> a !! "name" = None ->
         Gitea.parse_branch_result self r = Ok b ->
         Commit._author (Branch.get_last_commit b) = PyNone).
Proof.
  split; [|split; [|split; [|split; [|split; [|split; [|split]]]]]].
  - rewrite is_ok_true; split.
    + intros [b Hb]; apply parse_branch_result_ok in Hb.
      destruct Hb as (d & c0 & -> & Hc & _).
      apply parse_commit_result_ok in Hc.
      destruct Hc as (c & a & t & dt & m & Hcommit & Ha & Ht & Hdt & Hm & _).
      exists d, c, a, t; repeat split; try assumption.
      * unfold dict_get in Hcommit.
        destruct (d !! "commit") as [v|]; [now subst|discriminate].
      * now rewrite Hdt.
      * now rewrite <- (py_slice_to_sliceable _ 90), Hm.
    + intros (d & c & a & t & -> & Hcommit & Ha & Ht & Hdt & Hm).
      apply is_ok_true in Hdt; destruct Hdt as [dt Hdt].
      rewrite <- (py_slice_to_sliceable _ 90) in Hm.
      apply is_ok_true in Hm; destruct Hm as [m Hm].
      eexists; apply parse_branch_result_ok.
      exists d; eexists; split; [reflexivity|]; split; [|reflexivity].
      rewrite (dict_get_some _ _ _ Hcommit); apply parse_commit_result_ok.
      exists c, a, t, dt, m; repeat split; assumption.
  - intros e; unfold Gitea.parse_branch_result.
    destruct r as [| | | | |l|d]; simpl; try (intros [= <-]; auto).
    destruct (Gitea.parse_commit_result self (dict_get d "commit")) as [c|e']
      eqn:Hc; simpl; [discriminate|].
    intros [= <-]; eapply parse_commit_result_raise; eassumption.
  - intros d -> Hcommit; unfold Gitea.parse_branch_result; simpl.
    now rewrite (dict_get_none _ _ Hcommit).
  - intros d c -> Hcommit Ha; unfold Gitea.parse_branch_result; simpl.
    rewrite (dict_get_some _ _ _ Hcommit).
    unfold Gitea.parse_commit_result; simpl.
    now rewrite (dict_get_none _ _ Ha).
  - intros d c a t -> Hcommit Ha Ht Hdt.
    unfold Gitea.parse_branch_result; simpl.
    rewrite (dict_get_some _ _ _ Hcommit).
    unfold Gitea.parse_commit_result; simpl.
    rewrite (dict_get_some _ _ _ Ha); simpl.
    rewrite (dict_get_some _ _ _ Ht); simpl.
    destruct (strptime (str_slice_to t (-6)) "%Y-%m-%dT%H:%M:%S") as [dt|e]
      eqn:Hs; [discriminate|].
    now rewrite (strptime_raise _ _ _ Hs).
  - intros t Hlen.
    destruct (strptime (str_slice_to t (-6)) "%Y-%m-%dT%H:%M:%S") as [dt|]
      eqn:Hdt; [|reflexivity].
    apply strptime_length in Hdt; contradiction.
  - intros d b -> Hname Hb; apply parse_branch_result_ok in Hb.
    destruct Hb as (d' & c & [= <-] & _ & ->); simpl.
    now apply dict_get_none.
  - intros d c a b -> Hcommit Ha Hname Hb; apply parse_branch_result_ok in Hb.
    destruct Hb as (d' & c0 & [= <-] & Hc & ->); simpl.
    rewrite (dict_get_some _ _ _ Hcommit) in Hc.
    apply parse_commit_result_ok in Hc.
    destruct Hc as (c' & a' & t & dt & m & [= <-] & Ha' & _ & _ & _ & ->); simpl.
    rewrite Ha in Ha'; injection Ha' as <-.
    now apply dict_get_none.
Qed.

(** * The properties at sample inputs *)

(** The whole run on three branches aged 2, 40 and 100 days with a threshold
    of 30 days: the table lists the 100-day branch, then the 40-day one. *)
Example main_three_branches :
  BranchActivityReport.main example_args three_branches_env world0
  = (Ok tt,
     mk_World 6
       [PrintText "name|days_since_last_commit|author|message|timestamp|url/old/stale"]
       []).
Proof. vm_compute; reflexivity. Qed.

Lemma get_inactive_branches_spec_witness :
  clock_reads example_env world0 3 example_now
  /\ Repository.get_inactive_branches
       (Repository.mk "FWSW_Platform" example_branches) (mk_timedelta 30 0 0)
       example_env world0
     = (Ok [branch_40_days; branch_100_days], mk_World 3 [] []).
Proof.
  assert (H : clock_reads example_env world0 (length example_branches) example_now)
    by (intros i _; reflexivity).
  split; [exact H|].
  exact (proj1 (get_inactive_branches_spec example_env world0 "FWSW_Platform"
                  example_branches (mk_timedelta 30 0 0) example_now H)).
Defined.

Lemma display_tabulate_order_witness :
  [branch_40_days; branch_100_days] <> []
  /\ Repository.display_tabulate
       (Repository.mk "FWSW_Platform" [branch_40_days; branch_100_days]) true
       example_env world0
     = (Ok tt, table_printed example_env world0 [branch_100_days; branch_40_days]).
Proof.
  assert (H : [branch_40_days; branch_100_days] <> []) by discriminate.
  split; [exact H|].
  exact (proj1 (display_tabulate_order example_env world0 "FWSW_Platform"
                  [branch_40_days; branch_100_days] H)).
Defined.

Lemma commit_message_first_90_witness :
  ((String.length "fix the parser" <= 90)%nat
   /\ str_take 90 "fix the parser" = "fix the parser")
  /\ (String.length (str_repeat "x" 200) = 200%nat
      /\ String.length (str_take 90 (str_repeat "x" 200)) = 90%nat).
Proof.
  assert (H1 : (String.length "fix the parser" <= 90)%nat) by (simpl; lia).
  assert (H2 : String.length (str_repeat "x" 200) = 200%nat) by reflexivity.
  split; split; try assumption.
  - exact (proj1 (proj2 (proj2 (proj2
             (commit_message_first_90 example_gitea PyNone PyNone
                "fix the parser" example_now)))) H1).
  - exact (proj1 (proj2 (proj2 (proj2 (proj2
             (commit_message_first_90 example_gitea PyNone PyNone
                (str_repeat "x" 200) example_now))))) H2).
Defined.

Lemma timestamp_strip_and_parse_witness :
  (6 <= String.length "2023-06-22T10:15:30+02:00")%nat
  /\ (exists suffix : string,
         String.length suffix = 6%nat
         /\ "2023-06-22T10:15:30+02:00"
            = str_slice_to "2023-06-22T10:15:30+02:00" (-6) +:+ suffix)
  /\ strptime (str_slice_to "2023-06-22T10:15:30+02:00" (-6)) "%Y-%m-%dT%H:%M:%S"
     = Ok (mk_datetime 2023 6 22 10 15 30 0).
Proof.
  assert (H : (6 <= String.length "2023-06-22T10:15:30+02:00")%nat)
    by (simpl; lia).
  split; [exact H|]; split.
  - exact (proj1 (timestamp_strip_and_parse example_gitea
                    "2023-06-22T10:15:30+02:00") H).
  - exact (proj2 (proj1 (proj2 (proj2 (proj2
             (timestamp_strip_and_parse example_gitea "2023-06-22T10:15:30+02:00"))))
             (mk_datetime 2023 6 22 10 15 30 0) "+02:00"
             eq_refl eq_refl eq_refl eq_refl)).
Defined.

Lemma parse_branch_result_failures_witness :
  Gitea.parse_branch_result example_gitea (PyDict ∅) = Raise AttributeError
  /\ Gitea.parse_branch_result example_gitea (example_record "fix" "2023+00:00")
     = Raise ValueError
  /\ is_ok (strptime (str_slice_to "2023+00:00" (-6)) "%Y-%m-%dT%H:%M:%S") = false.
Proof.
  split; [|split].
  - exact (proj1 (proj2 (proj2
             (parse_branch_result_failures example_gitea (PyDict ∅))))
             ∅ eq_refl eq_refl).
  - refine (proj1 (proj2 (proj2 (proj2 (proj2
             (parse_branch_result_failures example_gitea
                (example_record "fix" "2023+00:00"))))))
             _ _ _ "2023+00:00" eq_refl _ _ _ _);
      [vm_compute; reflexivity ..].
  - refine (proj1 (proj2 (proj2 (proj2 (proj2 (proj2
             (parse_branch_result_failures example_gitea (PyDict ∅)))))))
             "2023+00:00" _).
    vm_compute; lia.
Defined.

Lemma get_branches_status_witness :
  requests_get not_found_env (branches_request example_gitea)
  = Ok (Response.mk 404 "https://git.example/api/v1/repos/rls/platform/branches"
                    "Not Found")
  /\ BranchActivityReport.main example_args not_found_env world0
     = (Ok tt,
        mk_World 0 []
          [Exception "Received status code: 404 (https://git.example/api/v1/repos/rls/platform/branches)"]).
Proof.
  assert (H : requests_get not_found_env (branches_request example_gitea)
              = Ok (Response.mk 404
                      "https://git.example/api/v1/repos/rls/platform/branches"
                      "Not Found")) by reflexivity.
  split; [exact H|].
  refine (proj1 (proj2 (proj2 (proj2
            (get_branches_status not_found_env example_gitea world0 _ H))))
            example_args eq_refl _).
  simpl; lia.
Defined.

Lemma record_round_trip_witness :
  well_formed_record (example_record "fix" "2023-06-22T10:15:30+00:00")
    "main" "alice" "fix" "https://git.example/commit/1" "2023-06-22T10:15:30+00:00"
  /\ (String.length "fix" <= 90)%nat
  /\ exists b : Branch.t,
      Gitea.parse_branch_result example_gitea
        (example_record "fix" "2023-06-22T10:15:30+00:00") = Ok b
      /\ Branch.get_name b = PyStr "main".
Proof.
  assert (H1 : well_formed_record (example_record "fix" "2023-06-22T10:15:30+00:00")
                 "main" "alice" "fix" "https://git.example/commit/1"
                 "2023-06-22T10:15:30+00:00").
  { eexists _, _, _; split; [reflexivity|].
    repeat split; vm_compute; reflexivity. }
  assert (H2 : (String.length "fix" <= 90)%nat) by (simpl; lia).
  split; [exact H1|]; split; [exact H2|].
  destruct (record_round_trip example_gitea _ _ _ _ _ _ H1 H2) as (b & Hb & Hn & _).
  exists b; split; assumption.
Defined.

Lemma parse_repository_results_pointwise_witness :
  exists bs : list Branch.t,
    Gitea.parse_repository_results example_gitea
      (PyList [example_record "fix" "2023-06-22T10:15:30+00:00";
               example_record "add" "2023-05-01T08:00:00+00:00"]) = Ok bs
    /\ length bs = 2%nat.
Proof.
  destruct (proj2 (parse_repository_results_pointwise example_gitea
                     [example_record "fix" "2023-06-22T10:15:30+00:00";
                      example_record "add" "2023-05-01T08:00:00+00:00"]))
    as (bs & Hbs & Hlen & _).
  - repeat constructor; eexists; vm_compute; reflexivity.
  - exists bs; split; assumption.
Defined.

(** * Further properties of the code *)

(** ** Ages in days *)

Lemma timedelta_days_total (t : timedelta) :
  timedelta_normal t -> days t = total_microseconds t / day_microseconds.
Proof.
  intros [Hs Hu]; unfold total_microseconds, day_microseconds.
  apply (Z.div_unique _ _ _ (seconds t * 1000000 + microseconds t)); lia.
Qed.

Lemma datetime_sub_days (a b : datetime) :
  days (datetime_sub a b)
  = (datetime_microseconds a - datetime_microseconds b) / day_microseconds.
Proof.
  rewrite (timedelta_days_total _ (datetime_sub_normal a b)).
  now rewrite datetime_sub_total.
Qed.

(** [days_since_last_commit] is the number of whole days from the commit to
    the reading of the clock, rounded down: it is negative for a commit that
    lies after that reading, and it never decreases when the clock is read
    later. *)
Theorem days_since_last_commit_floor (env : Env) (w : World) (b : Branch.t) :
  let now := wall_clock env (ticks w) in
  let age := datetime_microseconds now - datetime_microseconds (commit_timestamp b) in
  (exists row : odict,
      fst (Branch.get_dict b env w) = Ok row
      /\ days_cell row = Some (PyInt (age / day_microseconds)))
  /\ (0 <= age / day_microseconds <-> 0 <= age)
  /\ (forall later : datetime,
         datetime_microseconds now <= datetime_microseconds later ->
         age / day_microseconds
         <= days (datetime_sub later (commit_timestamp b))).
Proof.
  intros now age; split; [|split].
  - rewrite get_dict_run; eexists; split; [reflexivity|].
    unfold days_cell, branch_dict; cbn [odict_get String.eqb Ascii.eqb Bool.eqb].
    now rewrite datetime_sub_days.
  - unfold day_microseconds; split; intros H.
    + destruct (Z.lt_ge_cases age 0) as [Hneg|]; [|assumption].
      pose proof (Z.div_lt_upper_bound age 86400000000 0 ltac:(lia) ltac:(lia)).
      lia.
    + apply Z.div_pos; lia.
  - intros later Hlater; rewrite datetime_sub_days.
    apply Z.div_le_mono; unfold day_microseconds, age; lia.
Qed.

Lemma timedelta_days_some (n : Z) (T : timedelta) :
  timedelta_days (Some n) = Ok T ->
  T = mk_timedelta n 0 0 /\ Z.abs n <= 999999999.
Proof.
  unfold timedelta_days, timedelta_new, timedelta_norm; simpl.
  rewrite Z.add_0_r.
  destruct (Z.ltb_spec 999999999 (Z.abs n)); [discriminate|].
  intros [= <-]; split; [reflexivity|assumption].
Qed.

Lemma timedelta_ge_whole_days (t : timedelta) (n : Z) :
  timedelta_normal t ->
  timedelta_ge t (mk_timedelta n 0 0) = (n <=? days t).
Proof.
  destruct t as [d s u]; unfold timedelta_normal; cbn [days seconds microseconds].
  intros [Hs Hu].
  unfold timedelta_ge, timedelta_cmp, timedelta_state;
    cbn [lex_cmp days seconds microseconds].
  destruct (Z.compare_spec d n), (Z.compare_spec s 0), (Z.compare_spec u 0);
    symmetry; first [apply Z.leb_le; lia | apply Z.leb_gt; lia | lia].
Qed.

(** With the threshold [timedelta(days=n)] that [main] builds, a branch is
    active exactly when its [days_since_last_commit], taken at the same
    reading of the clock, is below [n]; read later, the column of a branch
    found inactive is still at least [n]. *)
Theorem is_active_whole_days (env : Env) (w : World) (b : Branch.t) (n : Z)
  (T : timedelta) :
  timedelta_days (Some n) = Ok T ->
  let now := wall_clock env (ticks w) in
  let d := days (datetime_sub now (commit_timestamp b)) in
  (exists row : odict,
      fst (Branch.get_dict b env w) = Ok row /\ days_cell row = Some (PyInt d))
  /\ fst (Branch.is_active b T env w) = Ok (d <? n)
  /\ (forall later : datetime,
         fst (Branch.is_active b T env w) = Ok false ->
         datetime_microseconds now <= datetime_microseconds later ->
         n <= days (datetime_sub later (commit_timestamp b))).
Proof.
  intros HT now d.
  apply timedelta_days_some in HT; destruct HT as [-> Hn].
  assert (Hact : fst (Branch.is_active b (mk_timedelta n 0 0) env w) = Ok (d <? n)).
  { rewrite is_active_run; cbn [fst]; f_equal.
    fold now.
    rewrite <- (negb_involutive (timedelta_lt _ _)), <- timedelta_ge_lt.
    rewrite (timedelta_ge_whole_days _ n (datetime_sub_normal _ _)).
    fold d; now rewrite Z.leb_antisym, negb_involutive. }
  split; [|split].
  - rewrite get_dict_run; eexists; split; reflexivity.
  - exact Hact.
  - intros later Hfalse Hlater.
    rewrite Hact in Hfalse; injection Hfalse as Hfalse.
    apply Z.ltb_ge in Hfalse.
    etransitivity; [exact Hfalse|].
    unfold d; rewrite !datetime_sub_days.
    apply Z.div_le_mono; unfold day_microseconds; lia.
Qed.

(** ** The inactive branches under a moving clock *)



(** ** Raising the threshold *)

Lemma inactive_at_threshold_mono (N : datetime) (T1 T2 : timedelta) (b : Branch.t) :
  timedelta_cmp T1 T2 <> Gt ->
  inactive_at N T2 b = true -> inactive_at N T1 b = true.
Proof.
  unfold inactive_at, timedelta_ge, timedelta_cmp; intros H12 H2.
  set (d := timedelta_state (datetime_sub N (commit_timestamp b))) in *.
  assert (H2' : lex_cmp (timedelta_state T2) d <> Gt).
  { rewrite (lex_cmp_antisym d); destruct (lex_cmp d _); simpl; congruence. }
  pose proof (lex_cmp_le_trans _ _ _ H12 H2') as H1.
  rewrite (lex_cmp_antisym d) in H1.
  destruct (lex_cmp d (timedelta_state T1)); simpl in *; congruence.
Qed.

Lemma filter_filter_implied {A : Type} (p q : A -> bool) (l : list A) :
  (forall x, q x = true -> p x = true) ->
  List.filter q (List.filter p l) = List.filter q l.
Proof.
  intros Hpq; induction l as [|x l IH]; [reflexivity|].
  cbn [List.filter].
  destruct (p x) eqn:Hp; cbn [List.filter]; rewrite IH; [reflexivity|].
  destruct (q x) eqn:Hq; [|reflexivity].
  rewrite (Hpq x Hq) in Hp; discriminate.
Qed.

(** A larger threshold can only shorten the report: at one reading of the
    clock, the branches inactive for [T2] are those among the branches
    inactive for a smaller [T1] that are inactive for [T2]; for thresholds
    given in days, more days give a sub-list. *)
Theorem get_inactive_branches_threshold (env : Env) (w : World) (name : string)
  (bs : list Branch.t) (T1 T2 : timedelta) (N : datetime) :
  clock_reads env w (length bs) N ->
  timedelta_cmp T1 T2 <> Gt ->
  exists l1 l2 : list Branch.t,
    fst (Repository.get_inactive_branches (Repository.mk name bs) T1 env w) = Ok l1
    /\ fst (Repository.get_inactive_branches (Repository.mk name bs) T2 env w) = Ok l2
    /\ l2 = List.filter (inactive_at N T2) l1
    /\ sublist l2 l1.
Proof.
  intros Hclock H12.
  exists (List.filter (inactive_at N T1) bs), (List.filter (inactive_at N T2) bs).
  rewrite !(get_inactive_branches_run env _ N bs name w Hclock).
  split; [reflexivity|]; split; [reflexivity|].
  assert (Heq : List.filter (inactive_at N T2) bs
                = List.filter (inactive_at N T2) (List.filter (inactive_at N T1) bs)).
  { symmetry; apply filter_filter_implied.
    intros b; now apply inactive_at_threshold_mono. }
  split; [exact Heq|].
  rewrite Heq; generalize (List.filter (inactive_at N T1) bs).
  intros l; induction l as [|x l IH]; [constructor|].
  cbn [List.filter]; destruct (inactive_at N T2 x); now constructor.
Qed.

(** ** The order of date-times and their distance *)

Lemma days_before_year_succ (y : Z) :
  1 <= y ->
  _days_before_year (y + 1)
  = _days_before_year y + 365 + (if _is_leap y then 1 else 0).
Proof.
  intros Hy; unfold _days_before_year, _is_leap.
  replace (y + 1 - 1) with y by lia.
  destruct (Z.eqb_spec (y mod 4) 0), (Z.eqb_spec (y mod 100) 0),
    (Z.eqb_spec (y mod 400) 0); cbn [andb orb negb];
    Z.div_mod_to_equations; lia.
Qed.

Lemma days_before_year_mono (y y' : Z) :
  1 <= y -> y <= y' -> _days_before_year y <= _days_before_year y'.
Proof.
  intros Hy Hle.
  replace y' with (y + Z.of_nat (Z.to_nat (y' - y))) by lia.
  induction (Z.to_nat (y' - y)) as [|k IH]; [rewrite Z.add_0_r; lia|].
  rewrite Nat2Z.inj_succ.
  replace (y + Z.succ (Z.of_nat k)) with (y + Z.of_nat k + 1) by lia.
  rewrite days_before_year_succ by lia.
  destruct (_is_leap _); lia.
Qed.

Ltac month_cases m tac :=
  let k := fresh "k" in
  let Hk := fresh "Hk" in
  assert (Hk : exists k : nat, m = Z.of_nat k /\ (k < 13)%nat)
    by (exists (Z.to_nat m); lia);
  destruct Hk as (k & -> & Hk);
  do 13 (destruct k as [|k]; [try lia; tac|]); lia.

(** The day of the year of a valid date lies within the year. *)
Lemma day_of_year_bounds (y m d : Z) :
  _check_date_fields y m d = true ->
  1 <= _days_before_month y m + d <= 365 + (if _is_leap y then 1 else 0).
Proof.
  unfold _check_date_fields; rewrite !andb_true_iff, !Z.leb_le.
  intros [[[[[Hy1 Hy2] Hm1] Hm2] Hd1] Hd2]; revert Hd2.
  unfold _days_in_month, _days_before_month.
  month_cases m ltac:(rewrite ?Nat2Z.id; destruct (_is_leap y); simpl; lia).
Qed.

Lemma days_before_month_next (y m m' d : Z) :
  _check_date_fields y m d = true -> m < m' <= 12 ->
  _days_before_month y m + d <= _days_before_month y m'.
Proof.
  unfold _check_date_fields; rewrite !andb_true_iff, !Z.leb_le.
  intros [[[[[Hy1 Hy2] Hm1] Hm2] Hd1] Hd2] Hm'; revert Hd2.
  unfold _days_in_month, _days_before_month.
  assert (Hk : exists k k' : nat,
             m = Z.of_nat k /\ m' = Z.of_nat k' /\ (k < k' < 13)%nat)
    by (exists (Z.to_nat m), (Z.to_nat m'); lia).
  destruct Hk as (k & k' & -> & -> & Hk); rewrite !Nat2Z.id.
  do 13 (destruct k as [|k];
         [try lia;
          do 13 (destruct k' as [|k'];
                 [try lia; destruct (_is_leap y); simpl; lia|]); lia|]);
    lia.
Qed.

Lemma ymd2ord_lt (y m d y' m' d' : Z) :
  _check_date_fields y m d = true -> _check_date_fields y' m' d' = true ->
  lex_cmp [y; m; d] [y'; m'; d'] = Lt ->
  _ymd2ord y m d < _ymd2ord y' m' d'.
Proof.
  intros Hv Hv' Hlt.
  pose proof (day_of_year_bounds _ _ _ Hv) as Hb.
  pose proof (day_of_year_bounds _ _ _ Hv') as Hb'.
  pose proof Hv as Hf; pose proof Hv' as Hf'.
  unfold _check_date_fields in Hf, Hf'.
  rewrite !andb_true_iff, !Z.leb_le in Hf, Hf'.
  destruct Hf as [[[[[Hy1 Hy2] Hm1] Hm2] Hd1] Hd2].
  destruct Hf' as [[[[[Hy1' Hy2'] Hm1'] Hm2'] Hd1'] Hd2'].
  unfold _ymd2ord; cbn [lex_cmp] in Hlt.
  destruct (Z.compare_spec y y') as [->|Hy|Hy]; [|clear Hlt|discriminate].
  - destruct (Z.compare_spec m m') as [->|Hm|Hm]; [|clear Hlt|discriminate].
    + destruct (Z.compare_spec d d'); try discriminate; lia.
    + pose proof (days_before_month_next y' m m' d Hv ltac:(lia)); lia.
  - pose proof (days_before_year_succ y Hy1) as Hsucc.
    pose proof (days_before_year_mono (y + 1) y' ltac:(lia) ltac:(lia)).
    lia.
Qed.

Lemma datetime_cmp_lt_microseconds (a b : datetime) :
  datetime_valid a = true -> datetime_valid b = true ->
  datetime_cmp a b = Lt ->
  datetime_microseconds a < datetime_microseconds b.
Proof.
  intros Ha Hb Hlt.
  pose proof Ha as Hta; pose proof Hb as Htb.
  unfold datetime_valid in Hta, Htb.
  apply andb_true_iff in Hta, Htb.
  destruct Hta as [Hda Hta], Htb as [Hdb Htb].
  unfold _check_time_fields in Hta, Htb.
  rewrite !andb_true_iff, !Z.leb_le in Hta, Htb.
  destruct Hta as [[[[[[[? ?] ?] ?] ?] ?] ?] ?].
  destruct Htb as [[[[[[[? ?] ?] ?] ?] ?] ?] ?].
  unfold datetime_microseconds, toordinal.
  destruct (lex_cmp [year a; month a; day a] [year b; month b; day b]) eqn:Hdate.
  - apply lex_cmp_eq in Hdate; injection Hdate as Hy Hm Hd.
    unfold datetime_cmp, datetime_state in Hlt; cbn [lex_cmp] in Hlt.
    rewrite Hy, Hm, Hd, !Z.compare_refl in Hlt.
    rewrite Hy, Hm, Hd.
    destruct (Z.compare_spec (hour a) (hour b)); try discriminate; [|lia].
    destruct (Z.compare_spec (minute a) (minute b)); try discriminate; [|lia].
    destruct (Z.compare_spec (second a) (second b)); try discriminate; [|lia].
    destruct (Z.compare_spec (microsecond a) (microsecond b)); try discriminate.
    lia.
  - pose proof (ymd2ord_lt _ _ _ _ _ _ Hda Hdb Hdate); lia.
  - exfalso; unfold datetime_cmp, datetime_state in Hlt.
    cbn [lex_cmp] in Hlt, Hdate.
    destruct (year a ?= year b); try discriminate.
    destruct (month a ?= month b); try discriminate.
    destruct (day a ?= day b); discriminate.
Qed.

Lemma datetime_cmp_instants (a b : datetime) :
  datetime_valid a = true -> datetime_valid b = true ->
  datetime_cmp a b = (datetime_microseconds a ?= datetime_microseconds b).
Proof.
  intros Ha Hb.
  destruct (datetime_cmp a b) eqn:Hc; symmetry.
  - apply datetime_cmp_eq in Hc; subst; apply Z.compare_refl.
  - apply Z.compare_lt_iff; now apply datetime_cmp_lt_microseconds.
  - apply Z.compare_gt_iff; apply datetime_cmp_lt_microseconds; auto.
    unfold datetime_cmp in *; rewrite lex_cmp_antisym, Hc; reflexivity.
Qed.

(** On valid date-times the comparison that [sorted] uses agrees with the
    subtraction that the ages come from: [a < b] exactly when [b - a] is a
    positive length of time. *)
Theorem datetime_cmp_microseconds (a b : datetime) :
  datetime_valid a = true -> datetime_valid b = true ->
  datetime_cmp a b = (datetime_microseconds a ?= datetime_microseconds b)
  /\ (datetime_lt a b = true
      <-> 0 < total_microseconds (datetime_sub b a)).
Proof.
  intros Ha Hb.
  pose proof (datetime_cmp_instants a b Ha Hb) as Hcmp.
  split; [exact Hcmp|].
  unfold datetime_lt; rewrite Hcmp, datetime_sub_total.
  destruct (Z.compare_spec (datetime_microseconds a) (datetime_microseconds b));
    split; intros; try discriminate; try lia; reflexivity.
Qed.

(** ** What the mapper stores as a timestamp *)

Lemma datetime_new_ok (y m d h mi s us : Z) (t : datetime) :
  datetime_new y m d h mi s us = Ok t ->
  t = mk_datetime y m d h mi s us /\ datetime_valid t = true.
Proof.
  unfold datetime_new.
  destruct (_check_date_fields y m d && _check_time_fields h mi s us) eqn:Hv;
    [|discriminate].
  intros [= <-]; split; [reflexivity|exact Hv].
Qed.

Lemma strptime_ok_valid (s format : string) (t : datetime) :
  strptime s format = Ok t -> datetime_valid t = true /\ microsecond t = 0.
Proof.
  unfold strptime.
  destruct (format_regex _); [|discriminate].
  destruct (rmatch _ _) as [|found tl]; [discriminate|].
  destruct (m_rest found); [|discriminate].
  intros H; apply datetime_new_ok in H; destruct H as [-> Hv].
  split; [exact Hv|reflexivity].
Qed.

(** Every branch the mapper returns carries a timestamp that is a date of
    the calendar with a time of day and no microseconds, although the
    pattern of the format lets through texts such as a 30th of February, a
    second 60 or the year 0000: for those the mapper raises [ValueError]. *)
Theorem mapped_timestamp_valid (self : Gitea.t) :
  (forall (r : pyval) (b : Branch.t),
      Gitea.parse_branch_result self r = Ok b ->
      valid_branch b /\ microsecond (commit_timestamp b) = 0)
  /\ (forall (results : pyval) (bs : list Branch.t),
         Gitea.parse_repository_results self results = Ok bs ->
         Forall valid_branch bs)
  /\ Gitea.parse_branch_result self (example_record "fix" "2023-02-30T10:15:30+00:00")
     = Raise ValueError
  /\ Gitea.parse_branch_result self (example_record "fix" "2023-06-22T10:15:60+00:00")
     = Raise ValueError
  /\ Gitea.parse_branch_result self (example_record "fix" "0000-06-22T10:15:30+00:00")
     = Raise ValueError.
Proof.
  assert (Hone : forall (r : pyval) (b : Branch.t),
             Gitea.parse_branch_result self r = Ok b ->
             valid_branch b /\ microsecond (commit_timestamp b) = 0).
  { intros r b Hb; apply parse_branch_result_ok in Hb.
    destruct Hb as (d & c & _ & Hc & ->).
    apply parse_commit_result_ok in Hc.
    destruct Hc as (d' & a & t & dt & m & _ & _ & _ & Hdt & _ & ->).
    apply strptime_ok_valid in Hdt; exact Hdt. }
  split; [exact Hone|]; split; [|repeat split; vm_compute; reflexivity].
  intros results bs; unfold Gitea.parse_repository_results.
  destruct (py_iter results) as [items|]; [|discriminate].
  cbn [mbind result_bind]; intros Hbs.
  apply parse_fold_ok in Hbs; destruct Hbs as (bs' & -> & Hall).
  cbn [app]; induction Hall as [|r b rs bs Hb _ IH]; constructor; [|exact IH].
  apply (Hone r b Hb).
Qed.

(** ** The days column of the sorted table *)

Lemma table_rows_days (env : Env) (N : datetime) (shown : list Branch.t) :
  forall t : nat,
    (forall i : nat, (i < length shown)%nat -> wall_clock env (t + i) = N) ->
    column 1 (table_rows env t shown) = map (fun b => PyInt (days_at N b)) shown.
Proof.
  induction shown as [|b shown IH]; intros t Hclock; [reflexivity|].
  cbn [table_rows column map].
  f_equal.
  - rewrite <- (Hclock 0%nat) by (simpl; lia); rewrite Nat.add_0_r; reflexivity.
  - apply IH; intros i Hi.
    rewrite <- (Hclock (S i)) by (simpl; lia); f_equal; lia.
Qed.

Lemma days_at_antitone (N : datetime) (a b : Branch.t) :
  valid_branch a -> valid_branch b ->
  datetime_le (commit_timestamp a) (commit_timestamp b) ->
  days_at N b <= days_at N a.
Proof.
  unfold valid_branch, datetime_le, days_at; intros Ha Hb Hle.
  rewrite (datetime_cmp_instants _ _ Ha Hb) in Hle.
  rewrite !datetime_sub_days.
  apply Z.div_le_mono; [unfold day_microseconds; lia|].
  destruct (Z.compare_spec (datetime_microseconds (commit_timestamp a))
                           (datetime_microseconds (commit_timestamp b)));
    try congruence; lia.
Qed.

(** With sorting on and one reading of the clock, the column
    [days_since_last_commit] of the printed table never increases from one
    row to the next: the branch left alone longest comes first.  The
    timestamps are valid, as those of the mapper are. *)
Theorem sorted_table_days_column (env : Env) (w : World) (name : string)
  (bs : list Branch.t) (N : datetime) :
  bs <> [] ->
  Forall valid_branch bs ->
  clock_reads env w (length bs) N ->
  let shown := sorted commit_timestamp datetime_lt bs in
  fst (Repository.display_tabulate (Repository.mk name bs) true env w) = Ok tt
  /\ stdout (snd (Repository.display_tabulate (Repository.mk name bs) true env w))
     = stdout w ++ [PrintText (tabulate env (table_rows env (ticks w) shown)
                                        header_keys)]
  /\ column 1 (table_rows env (ticks w) shown)
     = map (fun b => PyInt (days_at N b)) shown
  /\ StronglySorted (fun a b => days_at N b <= days_at N a) shown.
Proof.
  intros Hne Hvalid Hclock shown.
  assert (Hperm : Permutation bs shown) by apply sorted_perm.
  assert (Hrun : Repository.display_tabulate (Repository.mk name bs) true env w
                 = (Ok tt, table_printed env w shown)).
  { apply (display_run env w shown), sorted_not_nil, Hne. }
  rewrite Hrun; split; [reflexivity|]; split; [reflexivity|]; split.
  - apply table_rows_days; intros i Hi; apply Hclock.
    now rewrite (Permutation_length Hperm).
  - assert (Hvalid' : Forall valid_branch shown).
    { exact (Permutation_Forall Hperm Hvalid). }
    assert (Hsorted : StronglySorted
              (fun a b => datetime_le (commit_timestamp a) (commit_timestamp b))
              shown).
    { apply (sorted_sorted commit_timestamp datetime_lt datetime_le);
        [exact datetime_lt_le | exact datetime_not_lt_le | exact datetime_le_trans]. }
    clear Hrun Hperm Hclock Hvalid Hne.
    induction Hsorted as [|a l Hl IH Ha]; [constructor|].
    apply Forall_cons_1 in Hvalid'; destruct Hvalid' as [Hva Hvl].
    constructor; [now apply IH|].
    rewrite Forall_forall in *; intros x Hx.
    apply days_at_antitone; auto.
Qed.

(** ** The loop over the records: failures, other inputs, concatenation *)

Lemma parse_fold_acc (self : Gitea.t) (items : list pyval) :
  forall acc : list Branch.t,
    fold_left (Gitea.parse_step self) items (Ok acc)
    = match fold_left (Gitea.parse_step self) items (Ok []) with
      | Ok bs => Ok (acc ++ bs)
      | Raise e => Raise e
      end.
Proof.
  induction items as [|r items IH]; intros acc; cbn [fold_left].
  - now rewrite app_nil_r.
  - rewrite !parse_step_ok.
    destruct (Gitea.parse_branch_result self r) as [b|e].
    + rewrite (IH (acc ++ [b])), (IH ([] ++ [b])).
      destruct (fold_left _ items (Ok [])); [|reflexivity].
      now rewrite <- app_assoc.
    + now rewrite !parse_fold_raise.
Qed.

Lemma parse_list_cons (self : Gitea.t) (r : pyval) (rs : list pyval) :
  Gitea.parse_repository_results self (PyList (r :: rs))
  = match Gitea.parse_branch_result self r with
    | Ok b =>
        match Gitea.parse_repository_results self (PyList rs) with
        | Ok bs => Ok (b :: bs)
        | Raise e => Raise e
        end
    | Raise e => Raise e
    end.
Proof.
  unfold Gitea.parse_repository_results; cbn [py_iter mbind result_bind fold_left].
  rewrite parse_step_ok.
  destruct (Gitea.parse_branch_result self r) as [b|e].
  - now rewrite parse_fold_acc.
  - apply parse_fold_raise.
Qed.

(** Mapping a list of records fails exactly when some record does not map,
    and then with the exception of the first such record: the records after
    it play no part and no partial list is returned.  The empty list maps to
    the empty list. *)
Theorem parse_repository_results_first_failure (self : Gitea.t)
  (rs : list pyval) (e : exn) :
  (Gitea.parse_repository_results self (PyList rs) = Raise e
   <-> exists (good : list pyval) (bad : pyval) (rest : list pyval),
       rs = good ++ bad :: rest
       /\ Forall (fun r => is_ok (Gitea.parse_branch_result self r) = true) good
       /\ Gitea.parse_branch_result self bad = Raise e)
  /\ Gitea.parse_repository_results self (PyList []) = Ok [].
Proof.
  split; [|reflexivity].
  revert e; induction rs as [|r rs IH]; intros e.
  - split; [discriminate|].
    intros (good & bad & rest & Hrs & _); destruct good; discriminate.
  - rewrite parse_list_cons.
    destruct (Gitea.parse_branch_result self r) as [b|e'] eqn:Hr.
    + destruct (Gitea.parse_repository_results self (PyList rs)) as [bs|e'']
        eqn:Hrs.
      * split; [discriminate|].
        intros (good & bad & rest & Hsplit & Hgood & Hbad).
        destruct good as [|g good]; injection Hsplit as -> ->.
        -- congruence.
        -- apply Forall_cons_1 in Hgood; destruct Hgood as [_ Hgood].
           assert (Ok bs = Raise e :> result (list Branch.t)); [|discriminate].
           apply IH; exists good, bad, rest; repeat split; assumption.
      * split.
        -- intros [= <-]; destruct (proj1 (IH e'') eq_refl)
             as (good & bad & rest & -> & Hgood & Hbad).
           exists (r :: good), bad, rest; repeat split; auto.
           constructor; [now rewrite Hr|assumption].
        -- intros (good & bad & rest & Hsplit & Hgood & Hbad).
           destruct good as [|g good]; injection Hsplit as -> ->.
           ++ congruence.
           ++ apply Forall_cons_1 in Hgood; destruct Hgood as [_ Hgood].
              apply IH; exists good, bad, rest; repeat split; assumption.
    + split.
      * intros [= <-]; exists [], r, rs; repeat split; auto.
      * intros (good & bad & rest & Hsplit & Hgood & Hbad).
        destruct good as [|g good]; injection Hsplit as -> ->.
        -- congruence.
        -- apply Forall_cons_1 in Hgood; destruct Hgood as [Hg _].
           rewrite Hr in Hg; discriminate.
Qed.

(** Mapping the concatenation of two lists of records is mapping each and
    concatenating the branches; a failure in the first list comes before a
    failure in the second. *)
Theorem parse_repository_results_app (self : Gitea.t) (rs1 rs2 : list pyval) :
  Gitea.parse_repository_results self (PyList (rs1 ++ rs2))
  = match Gitea.parse_repository_results self (PyList rs1) with
    | Ok bs1 =>
        match Gitea.parse_repository_results self (PyList rs2) with
        | Ok bs2 => Ok (bs1 ++ bs2)
        | Raise e => Raise e
        end
    | Raise e => Raise e
    end.
Proof.
  unfold Gitea.parse_repository_results; cbn [py_iter mbind result_bind].
  rewrite fold_left_app.
  destruct (fold_left (Gitea.parse_step self) rs1 (Ok [])) as [bs1|e].
  - apply parse_fold_acc.
  - apply parse_fold_raise.
Qed.

(** When the decoded body is not a list: an object or a text is iterated
    over its keys or characters, none of which is a record, so the mapper
    raises [AttributeError] unless the object or the text is empty, when it
    returns no branch; [None], a boolean or a number raises [TypeError]. *)
Theorem parse_repository_results_not_a_list (self : Gitea.t) :
  (forall d : gmap string pyval,
      Gitea.parse_repository_results self (PyDict d)
      = if decide (d = ∅) then Ok [] else Raise AttributeError)
  /\ (forall s : string,
         Gitea.parse_repository_results self (PyStr s)
         = match s with
           | EmptyString => Ok []
           | String _ _ => Raise AttributeError
           end)
  /\ Gitea.parse_repository_results self PyNone = Raise TypeError
  /\ (forall b : bool,
         Gitea.parse_repository_results self (PyBool b) = Raise TypeError)
  /\ (forall z : Z,
         Gitea.parse_repository_results self (PyInt z) = Raise TypeError)
  /\ (forall bits : Z,
         Gitea.parse_repository_results self (PyFloat bits) = Raise TypeError).
Proof.
  split; [|split; [|repeat split]].
  - intros d; unfold Gitea.parse_repository_results; cbn [py_iter mbind result_bind].
    destruct (decide (d = ∅)) as [->|Hne].
    + now rewrite map_to_list_empty.
    + destruct (map_to_list d) as [|[k v] l] eqn:Hl.
      * apply map_to_list_empty_iff in Hl; contradiction.
      * cbn [map fold_left fst]; rewrite parse_step_ok.
        apply parse_fold_raise.
  - intros [|c s]; [reflexivity|].
    unfold Gitea.parse_repository_results;
      cbn [py_iter mbind result_bind list_ascii_of_string map fold_left].
    rewrite parse_step_ok; apply parse_fold_raise.
Qed.

(** ** The request that is sent *)

Lemma get_branches_raise (env : Env) (self : Gitea.t) (w : World) (e : exn) :
  requests_get env (branches_request self) = Raise e ->
  Gitea.get_branches self env w = (Raise e, w).
Proof.
  intros Hr; unfold Gitea.get_branches, mbind, M_bind, ask, lift.
  fold (branches_request self); now rewrite Hr.
Qed.

Lemma get_branches_world (env : Env) (self : Gitea.t) (w : World) :
  snd (Gitea.get_branches self env w) = w.
Proof.
  destruct (requests_get env (branches_request self)) as [r|e] eqn:Hr.
  - rewrite (get_branches_run env self w r Hr); reflexivity.
  - rewrite (get_branches_raise env self w e Hr); reflexivity.
Qed.


(** The two programs build their requests differently: the token variant
    sends the token in an [Authorization] header and no credentials, the
    basic variant sends the pair of credentials and no such header; both
    ask for JSON and both switch certificate verification off in [main]. *)
Theorem gitea_init_requests :
  (forall (server token owner repository : option string) (verify : bool),
      branches_request
        (BranchActivityReport.Gitea__init__ server token owner repository verify)
      = Request.mk
          (fstr server +:+ "/api/v1/repos/" +:+ fstr owner +:+ "/"
           +:+ fstr repository +:+ "/branches")
          [("Content-type", "application/json");
           ("Authorization", "token " +:+ fstr token)]
          None verify)
  /\ (forall (server user password owner repository : string) (verify : bool),
         branches_request
           (GiteaBranchActivity.Gitea__init__ server (user, password) owner
              repository verify)
         = Request.mk
             (server +:+ "/api/v1/repos/" +:+ owner +:+ "/" +:+ repository
              +:+ "/branches")
             [("Content-type", "application/json")]
             (Some (user, password)) verify)
  /\ (forall (args : BranchActivityReport.Namespace) (env : Env) (w : World)
        (e : exn),
         (forall req : Request.t,
             Request.verify req = false -> requests_get env req = Raise e) ->
         BranchActivityReport.main args env w
         = (Ok tt, mk_World (ticks w) (stdout w) (log w ++ [e])))
  /\ (forall (args : GiteaBranchActivity.Namespace) (env : Env) (w : World)
        (e : exn),
         (forall req : Request.t,
             Request.verify req = false -> requests_get env req = Raise e) ->
         GiteaBranchActivity.main args env w
         = (Ok tt, mk_World (ticks w)
                            (stdout w ++ [PrintException "Exception" e]) (log w))).
Proof.
  split; [reflexivity|]; split; [reflexivity|]; split.
  - intros args env w e Hreq.
    unfold BranchActivityReport.main, try_except, report.
    unfold mbind at 1, M_bind at 1.
    rewrite (get_branches_raise env _ w e); [reflexivity|].
    apply Hreq; reflexivity.
  - intros args env w e Hreq.
    unfold GiteaBranchActivity.main, try_except, report.
    unfold mbind at 1, M_bind at 1.
    rewrite (get_branches_raise env _ w e); [reflexivity|].
    apply Hreq; reflexivity.
Qed.

(** ** The table *)

Lemma display_tabulate_outcome (env : Env) (w : World) (name : string)
  (bs : list Branch.t) (sort_by_datetime : bool) :
  Repository.display_tabulate (Repository.mk name bs) sort_by_datetime env w
  = match shown_branches sort_by_datetime bs with
    | [] => (Raise IndexError, w)
    | _ :: _ => (Ok tt, table_printed env w (shown_branches sort_by_datetime bs))
    end.
Proof.
  destruct (shown_branches sort_by_datetime bs) as [|b0 rest] eqn:Hshown.
  - assert (bs = []) as ->.
    { destruct sort_by_datetime; [|exact Hshown].
      destruct bs as [|b bs]; [reflexivity|].
      exfalso; apply (sorted_not_nil commit_timestamp datetime_lt (b :: bs));
        [discriminate|exact Hshown]. }
    destruct sort_by_datetime, w; reflexivity.
  - rewrite <- Hshown.
    apply (display_run env w (shown_branches sort_by_datetime bs)).
    rewrite Hshown; discriminate.
Qed.

Lemma table_rows_lookup (env : Env) (shown : list Branch.t) :
  forall (t i : nat) (b : Branch.t),
    shown !! i = Some b ->
    table_rows env t shown !! i
    = Some (odict_values (branch_dict (wall_clock env (t + i)) b)).
Proof.
  induction shown as [|b0 shown IH]; intros t [|i] b Hi; try discriminate.
  - injection Hi as <-; cbn [table_rows]; now rewrite Nat.add_0_r.
  - cbn [table_rows].
    transitivity (table_rows env (S t) shown !! i); [reflexivity|].
    rewrite (IH (S t) i b Hi).
    now replace (S t + i)%nat with (t + S i)%nat by lia.
Qed.

Lemma table_rows_length (env : Env) (shown : list Branch.t) (t : nat) :
  length (table_rows env t shown) = length shown.
Proof.
  revert t; induction shown as [|b shown IH]; intros t; [reflexivity|].
  cbn [table_rows length]; now rewrite IH.
Qed.

(** The table handed to [tabulate] has one row per branch shown and six
    cells per row, and the cell under the [j]-th header in the [i]-th row is
    the value that the [i]-th branch's dict holds under that header, taken
    at that branch's own reading of the clock: the headers, read off the
    first branch only, fit every row. *)
Theorem table_cells_match_headers (env : Env) (w : World) (name : string)
  (bs : list Branch.t) (sort_by_datetime : bool) :
  let shown := shown_branches sort_by_datetime bs in
  let rows := table_rows env (ticks w) shown in
  (shown <> [] ->
   Repository.display_tabulate (Repository.mk name bs) sort_by_datetime env w
   = (Ok tt,
      mk_World (S (length bs) + ticks w)
               (stdout w ++ [PrintText (tabulate env rows header_keys)]) (log w)))
  /\ length rows = length shown
  /\ Forall (fun row => length row = length header_keys) rows
  /\ (forall (i j : nat) (b : Branch.t) (key : string),
         shown !! i = Some b -> header_keys !! j = Some key ->
         exists row : odict,
           fst (Branch.get_dict b env (advance i w)) = Ok row
           /\ cell rows i j = odict_get key row).
Proof.
  cbv zeta.
  assert (Hlen : length (shown_branches sort_by_datetime bs) = length bs).
  { destruct sort_by_datetime; [|reflexivity].
    symmetry; apply Permutation_length, sorted_perm. }
  split; [|split; [|split]].
  - intros Hne; rewrite display_tabulate_outcome.
    destruct (shown_branches sort_by_datetime bs) as [|b0 rest] eqn:Hshown;
      [congruence|].
    unfold table_printed; now rewrite Hlen.
  - apply table_rows_length.
  - clear Hlen; generalize (ticks w).
    induction (shown_branches sort_by_datetime bs) as [|b shown IH]; intros t.
    + constructor.
    + cbn [table_rows]; constructor; [reflexivity|apply IH].
  - intros i j b key Hi Hj; rewrite get_dict_run; eexists; split; [reflexivity|].
    unfold cell;
      rewrite (table_rows_lookup env (shown_branches sort_by_datetime bs)
                 (ticks w) i b Hi).
    cbn [mbind option_bind ticks advance].
    unfold header_keys in Hj.
    do 6 (destruct j as [|j]; [injection Hj as <-; reflexivity|]).
    discriminate.
Qed.

(** ** Sorting what is sorted *)

Lemma sorted_of_sorted (l : list Branch.t) :
  StronglySorted
    (fun a b => datetime_le (commit_timestamp a) (commit_timestamp b)) l ->
  sorted commit_timestamp datetime_lt l = l.
Proof.
  induction 1 as [|x l Hl IH Hx]; [reflexivity|].
  cbn [sorted]; rewrite IH.
  destruct l as [|y l]; [reflexivity|].
  cbn [sorted_insert].
  apply Forall_cons_1 in Hx; destruct Hx as [Hxy _].
  assert (datetime_lt (commit_timestamp y) (commit_timestamp x) = false) as ->;
    [|reflexivity].
  unfold datetime_le, datetime_cmp in Hxy; unfold datetime_lt, datetime_cmp.
  rewrite (lex_cmp_antisym (datetime_state (commit_timestamp x))).
  destruct (lex_cmp _ _); simpl; congruence.
Qed.

(** Sorting changes nothing that is in order: for branches already in
    ascending order of timestamp (equal timestamps allowed),
    [display_tabulate] prints the same with sorting on and off; and the
    branches shown with sorting on, sorted once more, are the same. *)
Theorem display_tabulate_sorted_input (env : Env) (w : World) (name : string)
  (bs : list Branch.t) :
  (StronglySorted
     (fun a b => datetime_le (commit_timestamp a) (commit_timestamp b)) bs ->
   Repository.display_tabulate (Repository.mk name bs) true env w
   = Repository.display_tabulate (Repository.mk name bs) false env w)
  /\ shown_branches true (shown_branches true bs) = shown_branches true bs.
Proof.
  split.
  - intros Hsorted; rewrite !display_tabulate_outcome.
    cbn [shown_branches]; now rewrite (sorted_of_sorted bs Hsorted).
  - cbn [shown_branches]; apply sorted_of_sorted.
    apply (sorted_sorted commit_timestamp datetime_lt datetime_le);
      [exact datetime_lt_le | exact datetime_not_lt_le | exact datetime_le_trans].
Qed.

(** ** The whole run *)

Lemma get_inactive_branches_returns (env : Env) (T : timedelta)
  (bs : list Branch.t) :
  forall w : World,
    exists kept : list Branch.t,
      Repository.get_inactive_branches (Repository.mk "FWSW_Platform" bs) T env w
      = (Ok kept, advance (length bs) w).
Proof.
  unfold Repository.get_inactive_branches; cbn [Repository._branches].
  induction bs as [|b bs IH]; intros w.
  - exists []; cbn [comprehension_if length]; now rewrite advance_0.
  - destruct (IH (mk_World (S (ticks w)) (stdout w) (log w))) as (kept & Hrun).
    eexists; cbn [comprehension_if length].
    unfold mbind at 1, M_bind at 1.
    unfold fmap at 1, M_fmap at 1.
    rewrite is_active_run.
    unfold mbind at 1, M_bind at 1.
    rewrite Hrun, advance_S; reflexivity.
Qed.

(** What [report] does once the records are mapped and the threshold is
    built. *)
Lemma report_tail (env : Env) (w : World) (bs : list Branch.t) (T : timedelta) :
  exists kept : list Branch.t,
    Repository.get_inactive_branches (Repository.mk "FWSW_Platform" bs) T env w
    = (Ok kept, advance (length bs) w)
    /\ (inactive ← Repository.get_inactive_branches
                     (Repository.__init__ "FWSW_Platform" bs) T;
        Repository.display_tabulate
          (Repository.__init__ "FWSW_Platform" inactive) true) env w
       = match sorted commit_timestamp datetime_lt kept with
         | [] => (Raise IndexError, advance (length bs) w)
         | _ :: _ =>
             (Ok tt, table_printed env (advance (length bs) w)
                                   (sorted commit_timestamp datetime_lt kept))
         end.
Proof.
  destruct (get_inactive_branches_returns env T bs w) as (kept & Hrun).
  exists kept; split; [exact Hrun|].
  unfold mbind, M_bind, Repository.__init__; rewrite Hrun.
  apply (display_tabulate_outcome env _ "FWSW_Platform" kept true).
Qed.

Lemma report_steps (g : Gitea.t) (inactive_days : option Z) (env : Env)
  (w : World) :
  report g inactive_days env w
  = match Gitea.get_branches g env w with
    | (Raise e, w1) => (Raise e, w1)
    | (Ok results, w1) =>
        match Gitea.parse_repository_results g results with
        | Raise e => (Raise e, w1)
        | Ok bs =>
            match timedelta_days inactive_days with
            | Raise e => (Raise e, w1)
            | Ok T =>
                (inactive ← Repository.get_inactive_branches
                              (Repository.__init__ "FWSW_Platform" bs) T;
                 Repository.display_tabulate
                   (Repository.__init__ "FWSW_Platform" inactive) true) env w1
            end
        end
    end.
Proof.
  unfold report.
  unfold mbind at 1, M_bind at 1.
  destruct (Gitea.get_branches g env w) as [[results|e] w1]; [|reflexivity].
  unfold mbind at 1, M_bind at 1, lift at 1.
  destruct (Gitea.parse_repository_results g results) as [bs|e]; [|reflexivity].
  cbv zeta.
  unfold mbind at 1, M_bind at 1, lift at 1.
  destruct (timedelta_days inactive_days) as [T|e]; reflexivity.
Qed.

Lemma report_outcome (g : Gitea.t) (inactive_days : option Z) (env : Env)
  (w : World) :
  match report g inactive_days env w with
  | (Ok _, w') =>
      exists text : string,
        stdout w' = stdout w ++ [PrintText text] /\ log w' = log w
  | (Raise _, w') => stdout w' = stdout w /\ log w' = log w
  end.
Proof.
  rewrite report_steps.
  pose proof (get_branches_world env g w) as Hw.
  destruct (Gitea.get_branches g env w) as [[results|e] w1];
    cbn [snd] in Hw; subst w1; [|split; reflexivity].
  destruct (Gitea.parse_repository_results g results) as [bs|e];
    [|split; reflexivity].
  destruct (timedelta_days inactive_days) as [T|e]; [|split; reflexivity].
  destruct (report_tail env w bs T) as (kept & _ & ->).
  destruct (sorted commit_timestamp datetime_lt kept) as [|b0 rest].
  - split; reflexivity.
  - eexists; split; reflexivity.
Qed.

(** A run never lets an exception out, and it does one of two things: it
    prints one table and logs nothing, or it prints no table and reports one
    exception (in the log for the token variant, as a line of standard
    output for the basic variant, which never logs). *)
Theorem main_outcome (env : Env) (w : World) :
  (forall args : BranchActivityReport.Namespace,
      exists w' : World,
        BranchActivityReport.main args env w = (Ok tt, w')
        /\ outcome (stdout w) (stdout w') (log w) (log w'))
  /\ (forall args : GiteaBranchActivity.Namespace,
         exists w' : World,
           GiteaBranchActivity.main args env w = (Ok tt, w')
           /\ log w' = log w
           /\ ((exists text : string, stdout w' = stdout w ++ [PrintText text])
               \/ (exists e : exn,
                      stdout w' = stdout w ++ [PrintException "Exception" e]))).
Proof.
  split; intros args.
  - unfold BranchActivityReport.main, try_except.
    match goal with |- context [report ?g ?d env w] =>
      pose proof (report_outcome g d env w) as H;
      destruct (report g d env w) as [[[]|e] w']
    end.
    + destruct H as (text & Hout & Hlog).
      eexists; split; [reflexivity|]; now apply (table_shown _ _ _ _ text).
    + destruct H as [Hout Hlog].
      eexists; split; [reflexivity|].
      apply (exception_logged _ _ _ _ e); cbn [stdout log logging_error];
        congruence.
  - unfold GiteaBranchActivity.main, try_except.
    match goal with |- context [report ?g ?d env w] =>
      pose proof (report_outcome g d env w) as H;
      destruct (report g d env w) as [[[]|e] w']
    end.
    + destruct H as (text & Hout & Hlog).
      eexists; split; [reflexivity|]; split; [exact Hlog|]; left; eauto.
    + destruct H as [Hout Hlog].
      eexists; split; [reflexivity|]; cbn [stdout log print_exception].
      split; [exact Hlog|]; right; exists e; now rewrite Hout.
Qed.

Lemma timedelta_days_ok (n : Z) :
  Z.abs n <= 999999999 -> timedelta_days (Some n) = Ok (mk_timedelta n 0 0).
Proof.
  intros Hn; unfold timedelta_days, timedelta_new, timedelta_norm; simpl.
  rewrite Z.add_0_r.
  destruct (Z.ltb_spec 999999999 (Z.abs n)); [lia|reflexivity].
Qed.


Lemma report_fetched (g : Gitea.t) (inactive_days : option Z) (env : Env)
  (w : World) (r : Response.t) (results : pyval) (bs : list Branch.t) :
  requests_get env (branches_request g) = Ok r ->
  In (Response.status_code r) [200; 2001] ->
  json_loads env (Response.text r) = Some results ->
  Gitea.parse_repository_results g results = Ok bs ->
  report g inactive_days env w
  = match timedelta_days inactive_days with
    | Raise e => (Raise e, w)
    | Ok T =>
        (inactive ← Repository.get_inactive_branches
                      (Repository.__init__ "FWSW_Platform" bs) T;
         Repository.display_tabulate
           (Repository.__init__ "FWSW_Platform" inactive) true) env w
    end.
Proof.
  intros Hr Hs Hjson Hbs; rewrite report_steps.
  rewrite (get_branches_run env g w r Hr).
  assert (existsb (Z.eqb (Response.status_code r)) Gitea.accepted_status_codes
          = true) as ->.
  { apply accepted_status; simpl in Hs; intuition lia. }
  cbn [negb]; unfold decoded; rewrite Hjson, Hbs; reflexivity.
Qed.

Lemma report_success (g : Gitea.t) (n : Z) (env : Env) (w : World)
  (r : Response.t) (results : pyval) (bs : list Branch.t) (N : datetime) :
  requests_get env (branches_request g) = Ok r ->
  In (Response.status_code r) [200; 2001] ->
  json_loads env (Response.text r) = Some results ->
  Gitea.parse_repository_results g results = Ok bs ->
  Z.abs n <= 999999999 ->
  clock_reads env w (length bs) N ->
  List.filter (inactive_at N (mk_timedelta n 0 0)) bs <> [] ->
  report g (Some n) env w
  = (Ok tt,
     table_printed env (advance (length bs) w)
       (sorted commit_timestamp datetime_lt
          (List.filter (inactive_at N (mk_timedelta n 0 0)) bs))).
Proof.
  intros Hr Hs Hjson Hbs Hn Hclock Hne.
  rewrite (report_fetched g _ env w r results bs Hr Hs Hjson Hbs).
  rewrite (timedelta_days_ok n Hn).
  unfold mbind, M_bind, Repository.__init__.
  rewrite (get_inactive_branches_run env _ N bs "FWSW_Platform" w Hclock).
  rewrite display_tabulate_outcome; cbn [shown_branches].
  pose proof (sorted_not_nil commit_timestamp datetime_lt _ Hne) as Hne'.
  destruct (sorted commit_timestamp datetime_lt _); [congruence|reflexivity].
Qed.

Lemma inactive_days_at (N : datetime) (n : Z) (b : Branch.t) :
  inactive_at N (mk_timedelta n 0 0) b = (n <=? days_at N b).
Proof.
  unfold inactive_at, days_at.
  apply timedelta_ge_whole_days, datetime_sub_normal.
Qed.

(** A run that succeeds: when the server answers 200 or 2001 with a body
    that decodes to records which all map, and the clock stands at [N]
    while the branches are judged, each program prints one table, that of
    the branches whose last commit is [n] days or more before [N], oldest
    commit first, provided there is such a branch; nothing is logged. *)
Theorem main_reports_inactive (env : Env) (w : World) (r : Response.t)
  (results : pyval) (bs : list Branch.t) (n : Z) (N : datetime) (g : Gitea.t) :
  requests_get env (branches_request g) = Ok r ->
  In (Response.status_code r) [200; 2001] ->
  json_loads env (Response.text r) = Some results ->
  Gitea.parse_repository_results g results = Ok bs ->
  Z.abs n <= 999999999 ->
  clock_reads env w (length bs) N ->
  let old := List.filter (fun b => n <=? days_at N b) bs in
  old <> [] ->
  let table :=
    table_printed env (advance (length bs) w)
                  (sorted commit_timestamp datetime_lt old) in
  (forall args : BranchActivityReport.Namespace,
      BranchActivityReport.Gitea__init__
        (BranchActivityReport.gitea_url args)
        (BranchActivityReport.access_token args)
        (BranchActivityReport.owner args)
        (BranchActivityReport.repository args) false = g ->
      BranchActivityReport.days args = Some n ->
      BranchActivityReport.main args env w = (Ok tt, table))
  /\ (forall args : GiteaBranchActivity.Namespace,
         GiteaBranchActivity.Gitea__init__
           (GiteaBranchActivity.gitea_url args)
           (GiteaBranchActivity.auth_username args,
            GiteaBranchActivity.auth_password args)
           (GiteaBranchActivity.owner args)
           (GiteaBranchActivity.repository args) false = g ->
         GiteaBranchActivity.days args = n ->
         GiteaBranchActivity.main args env w = (Ok tt, table))
  /\ log table = log w
  /\ Forall (fun b => n <= days_at N b) (sorted commit_timestamp datetime_lt old).
Proof.
  intros Hr Hs Hjson Hbs Hn Hclock old Hne table.
  assert (Hold : old = List.filter (inactive_at N (mk_timedelta n 0 0)) bs).
  { unfold old; apply filter_ext; intros b; symmetry; apply inactive_days_at. }
  assert (Hrep : report g (Some n) env w = (Ok tt, table)).
  { unfold table; rewrite Hold.
    apply (report_success g n env w r results bs N); auto.
    now rewrite <- Hold. }
  split; [|split; [|split]].
  - intros args <- Hdays.
    unfold BranchActivityReport.main, try_except; rewrite Hdays.
    now rewrite Hrep.
  - intros args <- <-.
    unfold GiteaBranchActivity.main, try_except.
    now rewrite Hrep.
  - reflexivity.
  - apply (Permutation_Forall (sorted_perm commit_timestamp datetime_lt old)).
    unfold old; apply Forall_forall; intros b Hb.
    apply list_elem_of_In, filter_In in Hb.
    destruct Hb as [_ Hb]; now apply Z.leb_le.
Qed.


(** ** Inactivity over time *)

(** For a threshold in normal form, a branch found inactive stays inactive
    at every later reading of the clock, and with it every branch whose
    last commit is not later (the timestamps being valid): among branches
    sorted by timestamp the inactive ones come first. *)
Theorem inactive_at_monotone (N : datetime) (T : timedelta) (b : Branch.t) :
  timedelta_normal T ->
  inactive_at N T b = true ->
  (forall later : datetime,
      datetime_microseconds N <= datetime_microseconds later ->
      inactive_at later T b = true)
  /\ (forall a : Branch.t,
         valid_branch a -> valid_branch b ->
         datetime_le (commit_timestamp a) (commit_timestamp b) ->
         inactive_at N T a = true).
Proof.
  intros HT Hb.
  assert (Hiff : forall (M : datetime) (c : Branch.t),
             inactive_at M T c = true
             <-> total_microseconds T
                 <= datetime_microseconds M
                    - datetime_microseconds (commit_timestamp c)).
  { intros M c; unfold inactive_at.
    rewrite (timedelta_ge_total _ _ (datetime_sub_normal _ _) HT).
    now rewrite datetime_sub_total. }
  apply Hiff in Hb; split.
  - intros later Hlater; apply Hiff; lia.
  - intros a Ha Hvb Hle; apply Hiff.
    unfold datetime_le in Hle.
    rewrite (datetime_cmp_instants _ _ Ha Hvb) in Hle.
    destruct (Z.compare_spec (datetime_microseconds (commit_timestamp a))
                             (datetime_microseconds (commit_timestamp b)));
      try congruence; lia.
Qed.

(** ** Filtering and sorting *)

Lemma sorted_insert_head (x : Branch.t) (l : list Branch.t) :
  Forall (fun z => datetime_le (commit_timestamp x) (commit_timestamp z)) l ->
  sorted_insert commit_timestamp datetime_lt x l = x :: l.
Proof.
  destruct l as [|y l]; [reflexivity|].
  intros Hl; apply Forall_cons_1 in Hl; destruct Hl as [Hxy _].
  cbn [sorted_insert].
  assert (datetime_lt (commit_timestamp y) (commit_timestamp x) = false) as ->;
    [|reflexivity].
  unfold datetime_le, datetime_cmp in Hxy; unfold datetime_lt, datetime_cmp.
  rewrite (lex_cmp_antisym (datetime_state (commit_timestamp x))).
  destruct (lex_cmp _ _); simpl; congruence.
Qed.

Lemma Forall_list_filter {A : Type} (P : A -> Prop) (p : A -> bool)
  (l : list A) :
  Forall P l -> Forall P (List.filter p l).
Proof.
  induction 1 as [|z l Hz _ IH]; [constructor|].
  cbn [List.filter]; destruct (p z); [constructor|]; assumption.
Qed.

Lemma filter_sorted_insert (p : Branch.t -> bool) (x : Branch.t)
  (l : list Branch.t) :
  StronglySorted
    (fun a b => datetime_le (commit_timestamp a) (commit_timestamp b)) l ->
  List.filter p (sorted_insert commit_timestamp datetime_lt x l)
  = if p x then sorted_insert commit_timestamp datetime_lt x (List.filter p l)
    else List.filter p l.
Proof.
  induction 1 as [|y l Hl IH Hy]; [cbn; now destruct (p x)|].
  cbn [sorted_insert].
  destruct (datetime_lt (commit_timestamp y) (commit_timestamp x)) eqn:Hlt.
  - cbn [List.filter]; rewrite IH.
    destruct (p y), (p x); try reflexivity.
    cbn [sorted_insert]; now rewrite Hlt.
  - cbn [List.filter].
    destruct (p x); [|reflexivity].
    rewrite sorted_insert_head; [reflexivity|].
    apply datetime_not_lt_le in Hlt.
    assert (Hall : Forall (fun z => datetime_le (commit_timestamp x)
                                                (commit_timestamp z)) (y :: l)).
    { constructor; [exact Hlt|].
      eapply Forall_impl; [exact Hy|].
      intros z Hz; eapply datetime_le_trans; eassumption. }
    apply (Forall_list_filter _ p (y :: l) Hall).
Qed.

(** Choosing branches and sorting them can be done in either order: the
    branches that pass a test, sorted by timestamp, are the sorted branches
    that pass the test.  So the table that [main] prints lists the inactive
    branches in the order they have in the sorted list of all branches. *)
Theorem sorted_filter_commute (p : Branch.t -> bool) (bs : list Branch.t) :
  sorted commit_timestamp datetime_lt (List.filter p bs)
  = List.filter p (sorted commit_timestamp datetime_lt bs).
Proof.
  induction bs as [|b bs IH]; [reflexivity|].
  cbn [sorted List.filter].
  rewrite filter_sorted_insert.
  - destruct (p b); cbn [sorted]; now rewrite IH.
  - apply (sorted_sorted commit_timestamp datetime_lt datetime_le);
      [exact datetime_lt_le | exact datetime_not_lt_le | exact datetime_le_trans].
Qed.

(** * The further properties at sample inputs *)

Lemma days_since_last_commit_floor_witness :
  datetime_microseconds example_now
  <= datetime_microseconds (mk_datetime 2023 7 11 0 0 0 0)
  /\ 40 <= days (datetime_sub (mk_datetime 2023 7 11 0 0 0 0)
                              (commit_timestamp branch_40_days)).
Proof.
  assert (H : datetime_microseconds example_now
              <= datetime_microseconds (mk_datetime 2023 7 11 0 0 0 0))
    by (vm_compute; discriminate).
  split; [exact H|].
  exact (proj2 (proj2 (days_since_last_commit_floor example_env world0
                         branch_40_days))
           (mk_datetime 2023 7 11 0 0 0 0) H).
Defined.

Lemma is_active_whole_days_witness :
  timedelta_days (Some 30) = Ok (mk_timedelta 30 0 0)
  /\ fst (Branch.is_active branch_40_days (mk_timedelta 30 0 0) example_env world0)
     = Ok false.
Proof.
  assert (H : timedelta_days (Some 30) = Ok (mk_timedelta 30 0 0)) by reflexivity.
  split; [exact H|].
  exact (proj1 (proj2 (is_active_whole_days example_env world0 branch_40_days 30
                         (mk_timedelta 30 0 0) H))).
Defined.


Lemma get_inactive_branches_threshold_witness :
  clock_reads example_env world0 3 example_now
  /\ timedelta_cmp (mk_timedelta 30 0 0) (mk_timedelta 90 0 0) <> Gt
  /\ exists l1 l2 : list Branch.t,
      fst (Repository.get_inactive_branches
             (Repository.mk "FWSW_Platform" example_branches)
             (mk_timedelta 30 0 0) example_env world0) = Ok l1
      /\ fst (Repository.get_inactive_branches
                (Repository.mk "FWSW_Platform" example_branches)
                (mk_timedelta 90 0 0) example_env world0) = Ok l2
      /\ sublist l2 l1.
Proof.
  assert (H1 : clock_reads example_env world0 (length example_branches) example_now)
    by (intros i _; reflexivity).
  assert (H2 : timedelta_cmp (mk_timedelta 30 0 0) (mk_timedelta 90 0 0) <> Gt)
    by (vm_compute; discriminate).
  split; [exact H1|]; split; [exact H2|].
  destruct (get_inactive_branches_threshold example_env world0 "FWSW_Platform"
              example_branches _ _ example_now H1 H2)
    as (l1 & l2 & E1 & E2 & _ & Hsub).
  exists l1, l2; repeat split; assumption.
Defined.

Lemma datetime_cmp_microseconds_witness :
  datetime_valid (mk_datetime 2023 5 22 12 0 0 0) = true
  /\ datetime_valid example_now = true
  /\ (datetime_lt (mk_datetime 2023 5 22 12 0 0 0) example_now = true
      <-> 0 < total_microseconds
                (datetime_sub example_now (mk_datetime 2023 5 22 12 0 0 0))).
Proof.
  split; [reflexivity|]; split; [reflexivity|].
  exact (proj2 (datetime_cmp_microseconds (mk_datetime 2023 5 22 12 0 0 0)
                  example_now eq_refl eq_refl)).
Defined.

Lemma mapped_timestamp_valid_witness :
  Gitea.parse_branch_result example_gitea
    (example_record "fix" "2023-06-22T10:15:30+00:00")
  = Ok (mapped_branch "main" "fix" (mk_datetime 2023 6 22 10 15 30 0))
  /\ valid_branch (mapped_branch "main" "fix" (mk_datetime 2023 6 22 10 15 30 0)).
Proof.
  assert (H : Gitea.parse_branch_result example_gitea
                (example_record "fix" "2023-06-22T10:15:30+00:00")
              = Ok (mapped_branch "main" "fix" (mk_datetime 2023 6 22 10 15 30 0)))
    by (vm_compute; reflexivity).
  split; [exact H|].
  exact (proj1 (proj1 (mapped_timestamp_valid example_gitea) _ _ H)).
Defined.

Lemma sorted_table_days_column_witness :
  [branch_40_days; branch_100_days] <> []
  /\ Forall valid_branch [branch_40_days; branch_100_days]
  /\ clock_reads example_env world0 2 example_now
  /\ column 1 (table_rows example_env 0
                 (sorted commit_timestamp datetime_lt
                    [branch_40_days; branch_100_days]))
     = [PyInt 100; PyInt 40].
Proof.
  assert (H1 : [branch_40_days; branch_100_days] <> []) by discriminate.
  assert (H2 : Forall valid_branch [branch_40_days; branch_100_days])
    by (repeat constructor).
  assert (H3 : clock_reads example_env world0
                 (length [branch_40_days; branch_100_days]) example_now)
    by (intros i _; reflexivity).
  split; [exact H1|]; split; [exact H2|]; split; [exact H3|].
  exact (proj1 (proj2 (proj2
           (sorted_table_days_column example_env world0 "FWSW_Platform"
              [branch_40_days; branch_100_days] example_now H1 H2 H3)))).
Defined.

Lemma parse_repository_results_first_failure_witness :
  Gitea.parse_repository_results example_gitea
    (PyList [example_record "fix" "2023-06-22T10:15:30+00:00"; PyNone;
             example_record "add" "no timestamp"])
  = Raise AttributeError.
Proof.
  apply (proj1 (parse_repository_results_first_failure example_gitea _ _)).
  exists [example_record "fix" "2023-06-22T10:15:30+00:00"], PyNone,
    [example_record "add" "no timestamp"].
  split; [reflexivity|]; split; [|reflexivity].
  repeat constructor.
Defined.


Lemma gitea_init_requests_witness :
  BranchActivityReport.main example_args example_env world0
  = (Ok tt, mk_World 0 [] [RequestException]).
Proof.
  exact (proj1 (proj2 (proj2 gitea_init_requests))
           example_args example_env world0 RequestException
           (fun _ _ => eq_refl)).
Defined.

Lemma table_cells_match_headers_witness :
  [branch_40_days; branch_100_days] !! 1%nat = Some branch_100_days
  /\ header_keys !! 0%nat = Some "name"
  /\ cell (table_rows example_env 0 [branch_40_days; branch_100_days]) 1 0
     = Some (PyStr "old").
Proof.
  split; [reflexivity|]; split; [reflexivity|].
  destruct (proj2 (proj2 (proj2
              (table_cells_match_headers example_env world0 "FWSW_Platform"
                 [branch_40_days; branch_100_days] false)))
              1%nat 0%nat branch_100_days "name" eq_refl eq_refl)
    as (row & Hrow & Hcell).
  cbv zeta in Hcell; cbn [shown_branches ticks world0] in Hcell.
  rewrite Hcell.
  injection Hrow as <-; reflexivity.
Defined.

Lemma display_tabulate_sorted_input_witness :
  StronglySorted
    (fun a b => datetime_le (commit_timestamp a) (commit_timestamp b))
    [branch_100_days; branch_40_days]
  /\ Repository.display_tabulate
       (Repository.mk "FWSW_Platform" [branch_100_days; branch_40_days]) true
       example_env world0
     = Repository.display_tabulate
         (Repository.mk "FWSW_Platform" [branch_100_days; branch_40_days]) false
         example_env world0.
Proof.
  assert (H : StronglySorted
                (fun a b => datetime_le (commit_timestamp a) (commit_timestamp b))
                [branch_100_days; branch_40_days]).
  { repeat constructor; vm_compute; discriminate. }
  split; [exact H|].
  exact (proj1 (display_tabulate_sorted_input example_env world0 "FWSW_Platform"
                  [branch_100_days; branch_40_days]) H).
Defined.

Lemma main_reports_inactive_witness :
  Gitea.parse_repository_results example_gitea (PyList three_records)
  = Ok three_mapped
  /\ BranchActivityReport.main example_args three_branches_env world0
     = (Ok tt,
        mk_World 6
          [PrintText "name|days_since_last_commit|author|message|timestamp|url/old/stale"]
          []).
Proof.
  assert (Hbs : Gitea.parse_repository_results example_gitea (PyList three_records)
                = Ok three_mapped) by (vm_compute; reflexivity).
  split; [exact Hbs|].
  refine (proj1 (main_reports_inactive three_branches_env world0
                   three_branches_response (PyList three_records) three_mapped
                   30 example_now example_gitea eq_refl _ eq_refl Hbs _ _ _)
            example_args eq_refl eq_refl).
  - simpl; lia.
  - simpl; lia.
  - intros i _; reflexivity.
  - vm_compute; discriminate.
Defined.


Lemma inactive_at_monotone_witness :
  timedelta_normal (mk_timedelta 30 0 0)
  /\ inactive_at example_now (mk_timedelta 30 0 0) branch_40_days = true
  /\ inactive_at (mk_datetime 2023 7 11 0 0 0 0) (mk_timedelta 30 0 0)
       branch_40_days = true.
Proof.
  assert (H1 : timedelta_normal (mk_timedelta 30 0 0))
    by (unfold timedelta_normal; simpl; lia).
  assert (H2 : inactive_at example_now (mk_timedelta 30 0 0) branch_40_days = true)
    by reflexivity.
  split; [exact H1|]; split; [exact H2|].
  apply (proj1 (inactive_at_monotone example_now (mk_timedelta 30 0 0)
                  branch_40_days H1 H2)).
  vm_compute; discriminate.
Defined.
